(** * OpenSAGE shader preamble [Common.h]: embedding and properties

    The header [src/OpenSage.Game/Assets/Shaders/Common.h] is GLSL: five
    resource-set numbers, the per-frame uniform block, five small functions
    and the statement macro [DO_CLIPPING].

    GLSL [float] is IEEE 754 binary32.  The header is embedded once, over an
    interface [FloatOps] of the scalar operations it uses (literals, [+],
    [*], [<]), and read at two instances:
    - [binary32]: the Standard Library's executable specification of IEEE
      arithmetic ([SpecFloat]) at precision 24 and [emax] 128, every
      operation rounded to nearest, ties to even;
    - [exactQ]: the rationals, the arithmetic that binary32 approximates.

    The built-ins [clamp], [min], [max], [dot], the [vec4] constructor and
    the product of a [mat4] by a [vec4] are written out as the GLSL
    specification words them (its chapters on common functions, geometric
    functions and vector and matrix operations); sums are taken left to
    right, each operation rounded on its own. *)

From Stdlib Require Import ZArith QArith Qcanon Qminmax Bool Lia Lqa Ring_theory Ring.
From Stdlib Require Import SpecFloat.
From stdpp Require Import base gmap.

Local Open Scope Z_scope.

(** ** Scalars *)

(** What the header needs from [float]: conversion of a decimal literal,
    addition, multiplication and the comparison [<]. *)
Class FloatOps (F : Type) := {
  fconst : Q -> F;
  fadd : F -> F -> F;
  fmul : F -> F -> F;
  fltb : F -> F -> bool
}.

Declare Scope glsl_scope.
Delimit Scope glsl_scope with glsl.
Infix "+" := fadd : glsl_scope.
Infix "*" := fmul : glsl_scope.
Infix "<?" := fltb : glsl_scope.

(** *** IEEE binary32 *)

Module B32.

Definition prec : Z := 24.
Definition emax : Z := 128.

(** A binary32 datum; the well-formed ones satisfy [valid]. *)
Definition float32 : Type := spec_float.

Definition valid (x : float32) : bool := valid_binary prec emax x.

Definition add : float32 -> float32 -> float32 := SFadd prec emax.
Definition mul : float32 -> float32 -> float32 := SFmul prec emax.
Definition div : float32 -> float32 -> float32 := SFdiv prec emax.
Definition ltb : float32 -> float32 -> bool := SFltb.
Definition leb : float32 -> float32 -> bool := SFleb.
Definition eqb : float32 -> float32 -> bool := SFeqb.

(** Conversion of an integer, rounded to nearest even. *)
Definition of_Z (n : Z) : float32 := binary_normalize prec emax n 0 false.

(** A decimal literal [n/d]: the correctly rounded quotient of the two
    integers.  Numerator and denominator of every literal of the header
    are below [2^24], so both conversions are exact and the quotient is
    rounded once. *)
Definition of_Q (q : Q) : float32 := div (of_Z (Qnum q)) (of_Z (Zpos (Qden q))).

Definition is_nan (x : float32) : bool :=
  match x with S754_nan => true | _ => false end.

Definition is_zero (x : float32) : bool :=
  match x with S754_zero _ => true | _ => false end.

Definition is_finite (x : float32) : bool :=
  match x with S754_zero _ | S754_finite _ _ _ => true | _ => false end.

(** [2^e] as a rational. *)
Definition Qpow2 (e : Z) : Q :=
  match e with
  | Z0 => 1%Q
  | Zpos p => inject_Z (2 ^ Zpos p)
  | Zneg p => (1 # (2 ^ p)%positive)%Q
  end.

(** The real number a finite binary32 datum stands for (0 on infinities
    and NaN, which stand for none). *)
Definition to_Q (x : float32) : Q :=
  match x with
  | S754_finite s m e => (inject_Z (cond_Zopp s (Zpos m)) * Qpow2 e)%Q
  | _ => 0%Q
  end.

End B32.

#[export] Instance binary32 : FloatOps B32.float32 := {
  fconst := B32.of_Q;
  fadd := B32.add;
  fmul := B32.mul;
  fltb := B32.ltb
}.

(** *** Exact arithmetic *)

Definition Qc_ltb (a b : Qc) : bool :=
  match (a ?= b)%Qc with Lt => true | _ => false end.

#[export] Instance exactQ : FloatOps Qc := {
  fconst := Q2Qc;
  fadd := Qcplus;
  fmul := Qcmult;
  fltb := Qc_ltb
}.

(** ** The header *)

Definition GLOBAL_CONSTANTS_RESOURCE_SET : Z := 0.
Definition PASS_CONSTANTS_RESOURCE_SET : Z := 1.
Definition MATERIAL_CONSTANTS_RESOURCE_SET : Z := 2.
Definition RENDER_ITEM_CONSTANTS_RESOURCE_SET : Z := 3.
Definition WATER_ANIMATION_CONSTANTS_RESOURCE_SET : Z := 4.

(** [layout(set = GLOBAL_CONSTANTS_RESOURCE_SET, binding = 0)] of the uniform
    block [GlobalConstants]: its set and its binding. *)
Definition GlobalConstants_layout : Z * Z := (GLOBAL_CONSTANTS_RESOURCE_SET, 0).

Section Header.

Context {F : Type} `{FloatOps F}.

Local Open Scope glsl_scope.

(** *** GLSL vector and matrix types *)

Record vec2 : Type := Vec2 { x2 : F; y2 : F }.
Record vec3 : Type := Vec3 { x3 : F; y3 : F; z3 : F }.
Record vec4 : Type := Vec4 { x4 : F; y4 : F; z4 : F; w4 : F }.

(** A [mat4] is four columns, [m[0]] to [m[3]]. *)
Record mat4 : Type := Mat4 { col0 : vec4; col1 : vec4; col2 : vec4; col3 : vec4 }.

(** [vec4(v, w)] *)
Definition vec4_of (v : vec3) (w : F) : vec4 := Vec4 (x3 v) (y3 v) (z3 v) w.

(** The swizzle [.xyz] *)
Definition xyz (v : vec4) : vec3 := Vec3 (x4 v) (y4 v) (z4 v).

(** [m * v]: the linear combination of the columns of [m]. *)
Definition mat4_mul_vec4 (m : mat4) (v : vec4) : vec4 :=
  let row (c : vec4 -> F) : F :=
    c (col0 m) * x4 v + c (col1 m) * y4 v + c (col2 m) * z4 v + c (col3 m) * w4 v in
  Vec4 (row x4) (row y4) (row z4) (row w4).

(** [dot(a, b)] *)
Definition dot (a b : vec4) : F :=
  x4 a * x4 b + y4 a * y4 b + z4 a * z4 b + w4 a * w4 b.

(** [a + b] and [c * a] on [vec3] *)
Definition vec3_add (a b : vec3) : vec3 :=
  Vec3 (x3 a + x3 b) (y3 a + y3 b) (z3 a + z3 b).

Definition vec3_scale (c : F) (a : vec3) : vec3 :=
  Vec3 (c * x3 a) (c * y3 a) (c * z3 a).

(** [max(x, y)] returns [y] if [x < y], otherwise [x];
    [min(x, y)] returns [y] if [y < x], otherwise [x];
    [clamp(x, lo, hi)] is [min(max(x, lo), hi)]. *)
Definition max (x y : F) : F := if x <? y then y else x.
Definition min (x y : F) : F := if y <? x then y else x.
Definition clamp (x lo hi : F) : F := min (max x lo) hi.

Definition clamp3 (v lo hi : vec3) : vec3 :=
  Vec3 (clamp (x3 v) (x3 lo) (x3 hi))
       (clamp (y3 v) (y3 lo) (y3 hi))
       (clamp (z3 v) (z3 lo) (z3 hi)).

(** *** The uniform block *)

Record GlobalConstantsType : Type := {
  CameraPosition : vec3;
  TimeInSeconds : F;
  ViewProjection : mat4;
  ClippingPlane1 : vec4;
  ClippingPlane2 : vec4;
  HasClippingPlane1 : bool;
  HasClippingPlane2 : bool;
  ViewportSize : vec2
}.

(** What one shader invocation can read and write besides its locals: the
    uniform block and the built-in output array [gl_ClipDistance], an
    unsized array whose elements are undefined until they are written: a
    finite map from the indices written so far to their values. *)
Record Invocation : Type := {
  _GlobalConstants : GlobalConstantsType;
  gl_ClipDistance : gmap nat F
}.

(** *** Functions *)

Definition FailsAlphaTest (alpha : F) : bool :=
  alpha <? fconst (37647 # 100000).

Definition TransformNormal (v : vec3) (m : mat4) : vec3 :=
  xyz (mat4_mul_vec4 m (vec4_of v (fconst 0))).

Definition saturate (v : F) : F :=
  clamp v (fconst 0) (fconst 1).

Definition saturate3 (v : vec3) : vec3 :=
  clamp3 v (Vec3 (fconst 0) (fconst 0) (fconst 0))
           (Vec3 (fconst 1) (fconst 1) (fconst 1)).

Definition CalculateClippingPlane
    (position : vec3) (hasClippingPlane : bool) (plane : vec4) : F :=
  if hasClippingPlane then dot (vec4_of position (fconst 1)) plane
  else fconst 1.

(** *** The macro

    [DO_CLIPPING(position)] expands to two assignments; its parameter does
    not occur in the expansion.  A store to [gl_ClipDistance[i]] is the
    map update at [i]. *)
Definition DO_CLIPPING {A : Type} (position : A) (st : Invocation) : Invocation :=
  let st1 := {| _GlobalConstants := _GlobalConstants st;
                gl_ClipDistance := <[0%nat := fconst 1]> (gl_ClipDistance st) |} in
  {| _GlobalConstants := _GlobalConstants st1;
     gl_ClipDistance := <[1%nat := fconst 1]> (gl_ClipDistance st1) |}.

End Header.

Arguments vec2 F : clear implicits.
Arguments vec3 F : clear implicits.
Arguments vec4 F : clear implicits.
Arguments mat4 F : clear implicits.
Arguments GlobalConstantsType F : clear implicits.
Arguments Invocation F : clear implicits.

(** ** Binary32: values, finiteness, equality up to the sign of zero *)

Module B32Rel.
Import B32.

(** Two data that denote the same value: identical, or zeros of either
    sign.  This is the GLSL [==] extended to relate NaN with itself. *)
Definition same (x y : float32) : Prop :=
  x = y \/ (is_zero x = true /\ is_zero y = true).

Definition same3 (a b : vec3 float32) : Prop :=
  same (x3 a) (x3 b) /\ same (y3 a) (y3 b) /\ same (z3 a) (z3 b).

Definition same4 (a b : vec4 float32) : Prop :=
  same (x4 a) (x4 b) /\ same (y4 a) (y4 b) /\ same (z4 a) (z4 b) /\ same (w4 a) (w4 b).


Definition finite3 (v : vec3 float32) : bool :=
  is_finite (x3 v) && is_finite (y3 v) && is_finite (z3 v).

Definition finite4 (v : vec4 float32) : bool :=
  is_finite (x4 v) && is_finite (y4 v) && is_finite (z4 v) && is_finite (w4 v).

Definition finite_mat4 (m : mat4 float32) : bool :=
  finite4 (col0 m) && finite4 (col1 m) && finite4 (col2 m) && finite4 (col3 m).

Definition valid3 (v : vec3 float32) : bool :=
  valid (x3 v) && valid (y3 v) && valid (z3 v).

(** The value of a valid finite datum as an integer multiple of
    [2^-149], the smallest positive binary32 number. *)
Definition scaled (x : float32) : Z :=
  match x with
  | S754_finite s m e => cond_Zopp s (Zpos m * 2 ^ (e + 149))
  | _ => 0
  end.

End B32Rel.

(** The matrix of the translation by [t]: identity linear part, [t] in the
    fourth column. *)
Definition translation {F : Type} `{FloatOps F} (t : vec3 F) : mat4 F :=
  Mat4 (Vec4 (fconst 1) (fconst 0) (fconst 0) (fconst 0))
       (Vec4 (fconst 0) (fconst 1) (fconst 0) (fconst 0))
       (Vec4 (fconst 0) (fconst 0) (fconst 1) (fconst 0))
       (Vec4 (x3 t) (y3 t) (z3 t) (fconst 1)).

(** The matrix that scales the first coordinate by [k]. *)
Definition scale_x {F : Type} `{FloatOps F} (k : F) : mat4 F :=
  Mat4 (Vec4 k (fconst 0) (fconst 0) (fconst 0))
       (Vec4 (fconst 0) (fconst 1) (fconst 0) (fconst 0))
       (Vec4 (fconst 0) (fconst 0) (fconst 1) (fconst 0))
       (Vec4 (fconst 0) (fconst 0) (fconst 0) (fconst 1)).

(** The vector [(x, 0, 0)]. *)
Definition along_x {F : Type} `{FloatOps F} (x : F) : vec3 F :=
  Vec3 x (fconst 0) (fconst 0).

(** [m] with its fourth column replaced. *)
Definition with_col3 {F : Type} (m : mat4 F) (c : vec4 F) : mat4 F :=
  Mat4 (col0 m) (col1 m) (col2 m) c.

(** The 8-bit alpha level [k] as the shader samples it: [k/255] rounded to
    binary32. *)
Definition unorm8 (k : Z) : B32.float32 := B32.of_Q (k # 255).

(** A frame's invocation state in binary32, for examples: one clipping
    plane enabled, the first clip distance written with another value,
    the second not written. *)
Definition sample_invocation : Invocation B32.float32 :=
  {| _GlobalConstants :=
       {| CameraPosition := Vec3 (B32.of_Q 0) (B32.of_Q 10) (B32.of_Q 0);
          TimeInSeconds := B32.of_Q 0;
          ViewProjection := translation (Vec3 (B32.of_Q 0) (B32.of_Q 0) (B32.of_Q 0));
          ClippingPlane1 := Vec4 (B32.of_Q 0) (B32.of_Q 1) (B32.of_Q 0) (B32.of_Q (-5));
          ClippingPlane2 := Vec4 (B32.of_Q 0) (B32.of_Q 0) (B32.of_Q 0) (B32.of_Q 0);
          HasClippingPlane1 := true;
          HasClippingPlane2 := false;
          ViewportSize := Vec2 (B32.of_Q 800) (B32.of_Q 600) |};
     gl_ClipDistance := {[ 0%nat := B32.of_Q (-5) ]} |}.

(** The contract of [saturate] between an argument [x] and a result [r],
    with the comparisons of binary32: 0 below 0, 1 above 1, [x] itself from
    0 to 1. *)
Definition saturates (x r : B32.float32) : Prop :=
  (B32.ltb x (fconst 0) = true -> r = fconst 0)
  /\ (B32.ltb (fconst 1) x = true -> r = fconst 1)
  /\ (B32.leb (fconst 0) x = true -> B32.leb x (fconst 1) = true -> r = x).

(** [r] does not compare outside the interval from 0 to 1. *)
Definition not_outside_unit (r : B32.float32) : Prop :=
  B32.ltb r (fconst 0) = false /\ B32.ltb (fconst 1) r = false.

(** [r] compares inside the interval from 0 to 1. *)
Definition inside_unit (r : B32.float32) : Prop :=
  B32.leb (fconst 0) r = true /\ B32.leb r (fconst 1) = true.

(** ** Binary32: an order embedding and the unary minus *)

Module B32Order.
Import B32 B32Rel.

(** A bound above every finite binary32 magnitude, in units of [2^-149]. *)
Definition huge : Z := 2 ^ 277.

(** The place of a datum in the order of binary32: its scaled value, the
    infinities beyond every finite one. *)
Definition key (x : float32) : Z :=
  match x with
  | S754_infinity false => huge
  | S754_infinity true => - huge
  | _ => scaled x
  end.

(** The GLSL unary minus. *)
Definition neg : float32 -> float32 := SFopp.

Definition neg3 (v : vec3 float32) : vec3 float32 :=
  Vec3 (neg (x3 v)) (neg (y3 v)) (neg (z3 v)).

Definition neg4 (v : vec4 float32) : vec4 float32 :=
  Vec4 (neg (x4 v)) (neg (y4 v)) (neg (z4 v)) (neg (w4 v)).

Definition valid4 (v : vec4 float32) : bool :=
  valid (x4 v) && valid (y4 v) && valid (z4 v) && valid (w4 v).

Definition valid_mat4 (m : mat4 float32) : bool :=
  valid4 (col0 m) && valid4 (col1 m) && valid4 (col2 m) && valid4 (col3 m).

(** Componentwise [<=] on [vec3]. *)
Definition leb3 (a b : vec3 float32) : bool :=
  leb (x3 a) (x3 b) && leb (y3 a) (y3 b) && leb (z3 a) (z3 b).

End B32Order.

(** The vectors [(0, y, 0)] and [(0, 0, z)]. *)
Definition along_y {F : Type} `{FloatOps F} (y : F) : vec3 F :=
  Vec3 (fconst 0) y (fconst 0).

Definition along_z {F : Type} `{FloatOps F} (z : F) : vec3 F :=
  Vec3 (fconst 0) (fconst 0) z.

(** * Properties *)

(** ** Binding slots *)

(** C7: the five resource-set constants are 0, 1, 2, 3 and 4, in the order
    global, pass, material, render item, water animation, and are pairwise
    distinct. *)
Theorem resource_sets_are_0_to_4_distinct :
  [GLOBAL_CONSTANTS_RESOURCE_SET; PASS_CONSTANTS_RESOURCE_SET;
   MATERIAL_CONSTANTS_RESOURCE_SET; RENDER_ITEM_CONSTANTS_RESOURCE_SET;
   WATER_ANIMATION_CONSTANTS_RESOURCE_SET] = [0; 1; 2; 3; 4]
  /\ NoDup [GLOBAL_CONSTANTS_RESOURCE_SET; PASS_CONSTANTS_RESOURCE_SET;
            MATERIAL_CONSTANTS_RESOURCE_SET; RENDER_ITEM_CONSTANTS_RESOURCE_SET;
            WATER_ANIMATION_CONSTANTS_RESOURCE_SET].
Proof.
  split; [reflexivity|].
  unfold GLOBAL_CONSTANTS_RESOURCE_SET, PASS_CONSTANTS_RESOURCE_SET,
    MATERIAL_CONSTANTS_RESOURCE_SET, RENDER_ITEM_CONSTANTS_RESOURCE_SET,
    WATER_ANIMATION_CONSTANTS_RESOURCE_SET.
  repeat (apply NoDup_cons; split; [rewrite ?elem_of_cons, elem_of_nil; lia|]).
  apply NoDup_nil_2.
Qed.

(** ** Clipping-plane distance *)

Section ClippingPlane.

Context {F : Type} `{FloatOps F}.

(** C2: with the enable flag false the result is the literal 1, whatever
    the position and the plane. *)
Theorem CalculateClippingPlane_disabled :
  forall (p p' : vec3 F) (plane plane' : vec4 F),
    CalculateClippingPlane p false plane = fconst 1
    /\ CalculateClippingPlane p false plane
       = CalculateClippingPlane p' false plane'.
Proof. intros; split; reflexivity. Qed.

End ClippingPlane.

(** C3: with the enable flag true the result is [dot(vec4(p, 1), plane)],
    that is [p.x*plane.x + p.y*plane.y + p.z*plane.z + 1*plane.w]; at
    p = (0,0,0) and plane = (0,1,0,-5) it is -5, in binary32 and in exact
    arithmetic. *)
Theorem CalculateClippingPlane_enabled :
  (forall (F : Type) (ops : FloatOps F) (p : vec3 F) (plane : vec4 F),
      CalculateClippingPlane p true plane = dot (vec4_of p (fconst 1)) plane
      /\ CalculateClippingPlane p true plane
         = (x3 p * x4 plane + y3 p * y4 plane + z3 p * z4 plane
            + fconst 1 * w4 plane)%glsl)
  /\ CalculateClippingPlane (F := B32.float32)
       (Vec3 (fconst 0) (fconst 0) (fconst 0)) true
       (Vec4 (fconst 0) (fconst 1) (fconst 0) (fconst (-5))) = fconst (-5)
  /\ (B32.to_Q (fconst (-5)) == -5)%Q
  /\ CalculateClippingPlane (F := Qc)
       (Vec3 (fconst 0) (fconst 0) (fconst 0)) true
       (Vec4 (fconst 0) (fconst 1) (fconst 0) (fconst (-5))) = fconst (-5).
Proof.
  split; [intros; split; reflexivity|].
  split; [vm_compute; reflexivity|].
  split; [vm_compute; reflexivity|].
  apply Qc_is_canon; vm_compute; reflexivity.
Qed.

(** ** The clipping macro *)

Section Clipping.

Context {F : Type} `{FloatOps F}.

Lemma DO_CLIPPING_clip {A : Type} (position : A) (st : Invocation F) :
  gl_ClipDistance (DO_CLIPPING position st)
  = <[1%nat := fconst 1]> (<[0%nat := fconst 1]> (gl_ClipDistance st)).
Proof. reflexivity. Qed.

Lemma DO_CLIPPING_uniforms {A : Type} (position : A) (st : Invocation F) :
  _GlobalConstants (DO_CLIPPING position st) = _GlobalConstants st.
Proof. reflexivity. Qed.

End Clipping.

(** C6: [DO_CLIPPING(position)] stores the constant 1.0 in
    [gl_ClipDistance[0]] and [gl_ClipDistance[1]] and does nothing else: the
    state it leaves is the same for every argument (of any type), the clip
    distances it leaves do not depend on the uniform block (no plane enters
    them), the other clip distances and the uniform block are untouched,
    and the stored distance 1.0 is not below 0, so the hardware clips
    nothing. *)
Theorem DO_CLIPPING_stores_one :
  forall (F : Type) (ops : FloatOps F) (A : Type) (position : A)
         (st : Invocation F),
    gl_ClipDistance (DO_CLIPPING position st) !! 0%nat = Some (fconst 1)
    /\ gl_ClipDistance (DO_CLIPPING position st) !! 1%nat = Some (fconst 1)
    /\ (forall i : nat, (2 <= i)%nat ->
          gl_ClipDistance (DO_CLIPPING position st) !! i = gl_ClipDistance st !! i)
    /\ _GlobalConstants (DO_CLIPPING position st) = _GlobalConstants st
    /\ (forall (B : Type) (position' : B),
          DO_CLIPPING position' st = DO_CLIPPING position st)
    /\ (forall (g : GlobalConstantsType F),
          gl_ClipDistance
            (DO_CLIPPING position
               {| _GlobalConstants := g; gl_ClipDistance := gl_ClipDistance st |})
          = gl_ClipDistance (DO_CLIPPING position st))
    /\ B32.ltb (fconst 1) (fconst 0) = false
    /\ B32.leb (fconst 0) (fconst 1) = true.
Proof.
  intros F ops A position st.
  rewrite DO_CLIPPING_clip.
  split.
  { rewrite lookup_insert_ne by lia. apply lookup_insert_eq. }
  split.
  { apply lookup_insert_eq. }
  split.
  { intros i Hi. rewrite !lookup_insert_ne by lia. reflexivity. }
  repeat split.
Qed.

(** On the sample invocation: the first distance, -5 before, and the
    second, not yet written, are both 1 afterwards. *)
Example DO_CLIPPING_sample :
  gl_ClipDistance sample_invocation !! 0%nat = Some (fconst (-5))
  /\ gl_ClipDistance sample_invocation !! 1%nat = None
  /\ gl_ClipDistance
       (DO_CLIPPING (CameraPosition (_GlobalConstants sample_invocation))
          sample_invocation)
     = {[ 0%nat := fconst 1; 1%nat := fconst 1 ]}.
Proof.
  split; [reflexivity|]. split; [reflexivity|].
  rewrite DO_CLIPPING_clip. unfold sample_invocation. cbn [gl_ClipDistance].
  rewrite insert_singleton_eq. apply insert_insert_ne. lia.
Qed.

(** ** Binary32 comparisons *)

Section Compare.

Import B32.

Lemma fconst_0 : (fconst 0 : float32) = S754_zero false.
Proof. vm_compute. reflexivity. Qed.

Lemma fconst_1 : (fconst 1 : float32) = S754_finite false 8388608 (-23).
Proof. vm_compute. reflexivity. Qed.

(** Swapping the operands of a comparison reverses its outcome. *)
Lemma SFcompare_swap (x y : float32) (c : comparison) :
  SFcompare x y = Some c -> SFcompare y x = Some (CompOpp c).
Proof.
  destruct x as [sx|sx| |sx mx ex], y as [sy|sy| |sy my ey]; simpl;
    try discriminate;
    try (destruct sx; intros [= <-]; reflexivity);
    try (destruct sy; intros [= <-]; reflexivity);
    try (destruct sx, sy; intros [= <-]; reflexivity).
  intros [= <-]. f_equal.
  pose proof (Pos.compare_antisym mx my) as Hm. unfold Pos.compare in Hm.
  rewrite (Z.compare_antisym ex ey), Hm.
  destruct sx, sy; simpl; try reflexivity;
    destruct (ex ?= ey); simpl; try reflexivity;
    destruct (Pos.compare_cont Eq mx my); reflexivity.
Qed.

Lemma ltb_asym (x y : float32) : ltb x y = true -> ltb y x = false.
Proof.
  unfold ltb, SFltb. destruct (SFcompare x y) as [c|] eqn:E; [|discriminate].
  rewrite (SFcompare_swap _ _ _ E). destruct c; simpl; congruence.
Qed.

Lemma leb_not_ltb (x y : float32) : leb x y = true -> ltb y x = false.
Proof.
  unfold leb, ltb, SFleb, SFltb.
  destruct (SFcompare x y) as [c|] eqn:E; [|discriminate].
  rewrite (SFcompare_swap _ _ _ E). destruct c; simpl; congruence.
Qed.

(** Below 0 is below 1, above 1 is above 0. *)
Lemma ltb_1_not_ltb_0 (x : float32) :
  ltb (fconst 1) x = true -> ltb x (fconst 0) = false.
Proof.
  rewrite fconst_0, fconst_1.
  destruct x as [s|s| |s m e]; try destruct s; simpl; try discriminate;
    reflexivity.
Qed.

Lemma not_nan_compare (x y : float32) :
  is_nan x = false -> is_nan y = false -> exists c, SFcompare x y = Some c.
Proof.
  destruct x, y; simpl; try discriminate; eauto.
Qed.

Lemma not_ltb_leb (x y : float32) :
  is_nan x = false -> is_nan y = false -> ltb x y = false -> leb y x = true.
Proof.
  intros Hx Hy. destruct (not_nan_compare x y Hx Hy) as [c E].
  unfold ltb, leb, SFltb, SFleb. rewrite E, (SFcompare_swap _ _ _ E).
  destruct c; simpl; congruence.
Qed.

End Compare.

(** ** Saturation *)

Section Saturate.

Import B32.

Local Abbreviation sat := (saturate (F := float32)).

Lemma saturate_below (x : float32) :
  ltb x (fconst 0) = true -> sat x = fconst 0.
Proof.
  intros Hx. unfold saturate, clamp, max, min. cbn [fltb binary32].
  rewrite Hx. vm_compute. reflexivity.
Qed.

Lemma saturate_above (x : float32) :
  ltb (fconst 1) x = true -> sat x = fconst 1.
Proof.
  intros Hx. unfold saturate, clamp, max, min. cbn [fltb binary32].
  rewrite (ltb_1_not_ltb_0 x Hx), Hx. reflexivity.
Qed.

Lemma saturate_between (x : float32) :
  ltb x (fconst 0) = false -> ltb (fconst 1) x = false -> sat x = x.
Proof.
  intros H0 H1. unfold saturate, clamp, max, min. cbn [fltb binary32].
  rewrite H0, H1. reflexivity.
Qed.

(** The result is the argument, 0 or 1; which one, the two comparisons of
    [clamp] decide. *)
Lemma saturate_trichotomy (x : float32) :
  (ltb x (fconst 0) = true /\ sat x = fconst 0)
  \/ (ltb x (fconst 0) = false /\ ltb (fconst 1) x = true /\ sat x = fconst 1)
  \/ (ltb x (fconst 0) = false /\ ltb (fconst 1) x = false /\ sat x = x).
Proof.
  destruct (ltb x (fconst 0)) eqn:H0.
  - left. auto using saturate_below.
  - right. destruct (ltb (fconst 1) x) eqn:H1.
    + left. auto using saturate_above.
    + right. auto using saturate_between.
Qed.

Lemma saturate_0 : sat (fconst 0) = fconst 0.
Proof. vm_compute. reflexivity. Qed.

Lemma saturate_1 : sat (fconst 1) = fconst 1.
Proof. vm_compute. reflexivity. Qed.

Lemma saturate_idem (x : float32) : sat (sat x) = sat x.
Proof.
  destruct (saturate_trichotomy x) as [[_ ->]|[(_ & _ & ->)|(H0 & H1 & E)]].
  - apply saturate_0.
  - apply saturate_1.
  - rewrite !E. reflexivity.
Qed.

Lemma saturate_not_below (x : float32) : ltb (sat x) (fconst 0) = false.
Proof.
  destruct (saturate_trichotomy x) as [[_ ->]|[(_ & _ & ->)|(H0 & H1 & ->)]];
    [vm_compute; reflexivity | vm_compute; reflexivity | exact H0].
Qed.

Lemma saturate_not_above (x : float32) : ltb (fconst 1) (sat x) = false.
Proof.
  destruct (saturate_trichotomy x) as [[_ ->]|[(_ & _ & ->)|(H0 & H1 & ->)]];
    [vm_compute; reflexivity | vm_compute; reflexivity | exact H1].
Qed.

Lemma saturate_nan (x : float32) : is_nan (sat x) = is_nan x.
Proof.
  destruct (saturate_trichotomy x) as [[H ->]|[(_ & H & ->)|(H0 & H1 & ->)]];
    [| |reflexivity]; destruct x as [s|s| |s m e]; try discriminate;
    reflexivity.
Qed.

Lemma saturate_in_range (x : float32) :
  is_nan x = false ->
  leb (fconst 0) (sat x) = true /\ leb (sat x) (fconst 1) = true.
Proof.
  intros Hx. split; apply not_ltb_leb;
    rewrite ?saturate_nan; auto using saturate_not_below, saturate_not_above.
Qed.

Lemma saturate3_components (v : vec3 float32) :
  saturate3 v = Vec3 (sat (x3 v)) (sat (y3 v)) (sat (z3 v)).
Proof. reflexivity. Qed.

End Saturate.

(** ** The order of binary32 and the order of the values *)

Section Order.

Import B32 B32Rel.

Lemma digits2_pos_size (m : positive) : digits2_pos m = Pos.size m.
Proof. induction m; simpl; congruence. Qed.

(** A valid mantissa has at most 24 bits, exactly 24 unless the exponent is
    the least one. *)
Lemma bounded_range (m : positive) (e : Z) :
  bounded prec emax m e = true ->
  -149 <= e <= 104 /\ Zpos m < 2 ^ 24 /\ (-149 < e -> 2 ^ 23 <= Zpos m).
Proof.
  unfold bounded, canonical_mantissa, fexp, SpecFloat.emin, prec, emax.
  rewrite andb_true_iff, Z.eqb_eq, Z.leb_le, digits2_pos_size.
  intros [Hc He].
  assert (Hd : Z.pos (Pos.size m) <= 24) by lia.
  assert (Hn : -149 < e -> Z.pos (Pos.size m) = 24) by lia.
  assert (Hr : -149 <= e <= 104) by lia.
  clear Hc He.
  pose proof (Pos.size_gt m) as Hgt. pose proof (Pos.size_le m) as Hle.
  apply Pos2Z.pos_lt_pos in Hgt. apply Pos2Z.pos_le_pos in Hle.
  rewrite Pos2Z.inj_pow in Hgt, Hle.
  change (Z.pos m~0) with (2 * Z.pos m) in Hle.
  split; [exact Hr|]. split.
  - apply (Z.lt_le_trans _ _ _ Hgt). apply Z.pow_le_mono_r; lia.
  - intros He. rewrite (Hn He) in Hle.
    change (2 ^ 24) with (2 * 8388608) in Hle. change (2 ^ 23) with 8388608.
    clear Hgt. lia.
Qed.

Lemma compare_scaled_pos (m1 m2 : positive) (e1 e2 : Z) :
  bounded prec emax m1 e1 = true -> bounded prec emax m2 e2 = true ->
  match e1 ?= e2 with
  | Lt => Lt
  | Gt => Gt
  | Eq => Pos.compare_cont Eq m1 m2
  end = (Zpos m1 * 2 ^ (e1 + 149) ?= Zpos m2 * 2 ^ (e2 + 149)).
Proof.
  intros H1 H2.
  destruct (bounded_range _ _ H1) as (He1 & Hu1 & Hl1).
  destruct (bounded_range _ _ H2) as (He2 & Hu2 & Hl2).
  change (2 ^ 24) with 16777216 in *. change (2 ^ 23) with 8388608 in *.
  destruct (Z.compare_spec e1 e2) as [->|Hlt|Hgt].
  - rewrite <- Zmult_compare_compat_r by (apply Z.lt_gt, Z.pow_pos_nonneg; lia).
    reflexivity.
  - symmetry. apply Z.compare_lt_iff.
    replace (e2 + 149) with ((e2 - e1) + (e1 + 149)) by lia.
    rewrite (Z.pow_add_r 2 (e2 - e1) (e1 + 149)) by lia.
    pose proof (Z.pow_pos_nonneg 2 (e1 + 149) ltac:(lia) ltac:(lia)).
    pose proof (Z.pow_le_mono_r 2 1 (e2 - e1) ltac:(lia) ltac:(lia)) as Hp.
    change (2 ^ 1) with 2 in Hp. specialize (Hl2 ltac:(lia)).
    rewrite Z.mul_assoc. apply Z.mul_lt_mono_pos_r; [assumption|]. nia.
  - symmetry. apply Z.compare_gt_iff.
    replace (e1 + 149) with ((e1 - e2) + (e2 + 149)) by lia.
    rewrite (Z.pow_add_r 2 (e1 - e2) (e2 + 149)) by lia.
    pose proof (Z.pow_pos_nonneg 2 (e2 + 149) ltac:(lia) ltac:(lia)).
    pose proof (Z.pow_le_mono_r 2 1 (e1 - e2) ltac:(lia) ltac:(lia)) as Hp.
    change (2 ^ 1) with 2 in Hp. specialize (Hl1 ltac:(lia)).
    rewrite Z.mul_assoc. apply Z.mul_lt_mono_pos_r; [assumption|]. nia.
Qed.

Lemma scaled_pos (m : positive) (e : Z) :
  -149 <= e -> 0 < Zpos m * 2 ^ (e + 149).
Proof.
  intros He. apply Z.mul_pos_pos; [lia|]. apply Z.pow_pos_nonneg; lia.
Qed.

(** On valid finite data the comparison of binary32 is the comparison of
    the scaled values. *)
Lemma SFcompare_scaled (x y : float32) :
  valid x = true -> valid y = true ->
  is_finite x = true -> is_finite y = true ->
  SFcompare x y = Some (scaled x ?= scaled y).
Proof.
  destruct x as [sx|sx| |sx mx ex], y as [sy|sy| |sy my ey];
    try discriminate; unfold valid, valid_binary; intros Vx Vy _ _;
    cbn [scaled SFcompare].
  - reflexivity.
  - destruct (bounded_range _ _ Vy) as (He & _).
    pose proof (scaled_pos my ey ltac:(lia)).
    destruct sy; cbn [cond_Zopp]; f_equal; symmetry;
      [apply Z.compare_gt_iff | apply Z.compare_lt_iff]; lia.
  - destruct (bounded_range _ _ Vx) as (He & _).
    pose proof (scaled_pos mx ex ltac:(lia)).
    destruct sx; cbn [cond_Zopp]; f_equal; symmetry;
      [apply Z.compare_lt_iff | apply Z.compare_gt_iff]; lia.
  - destruct (bounded_range _ _ Vx) as (Hex & _).
    destruct (bounded_range _ _ Vy) as (Hey & _).
    pose proof (scaled_pos mx ex ltac:(lia)).
    pose proof (scaled_pos my ey ltac:(lia)).
    pose proof (compare_scaled_pos mx my ex ey Vx Vy) as Hc.
    f_equal. destruct sx, sy; cbn [cond_Zopp].
    + rewrite Z.compare_opp, (Z.compare_antisym (Z.pos mx * _)), <- Hc.
      destruct (ex ?= ey); reflexivity.
    + symmetry. apply Z.compare_lt_iff. lia.
    + symmetry. apply Z.compare_gt_iff. lia.
    + exact Hc.
Qed.

Lemma Qpow2_scaled (e : Z) :
  -149 <= e -> (Qpow2 e == (2 ^ (e + 149)) # (2 ^ 149))%Q.
Proof.
  intros He. unfold Qeq. destruct e as [|p|p]; cbn [Qpow2 Qnum Qden inject_Z].
  - reflexivity.
  - rewrite Z.pow_add_r by lia. rewrite Pos2Z.inj_pow. lia.
  - rewrite !Pos2Z.inj_pow.
    replace (2 ^ 149) with (2 ^ (Z.neg p + 149) * 2 ^ Z.pos p) at 1; [lia|].
    rewrite <- Z.pow_add_r by lia. f_equal. lia.
Qed.

Lemma to_Q_scaled (x : float32) :
  valid x = true -> (to_Q x == scaled x # (2 ^ 149))%Q.
Proof.
  destruct x as [s|s| |s m e]; try reflexivity.
  unfold valid, valid_binary. intros V.
  destruct (bounded_range _ _ V) as (He & _).
  cbn [to_Q scaled]. rewrite (Qpow2_scaled e) by lia.
  unfold Qeq, Qmult, inject_Z. cbn [Qnum Qden].
  destruct s; cbn [cond_Zopp]; lia.
Qed.

Lemma Qlt_scaled (x y : float32) :
  valid x = true -> valid y = true ->
  (to_Q x < to_Q y)%Q <-> scaled x < scaled y.
Proof.
  intros Vx Vy. rewrite (to_Q_scaled x Vx), (to_Q_scaled y Vy).
  unfold Qlt. cbn [Qnum Qden]. split; intros Hlt; nia.
Qed.

(** [x < y] in binary32 exactly when the value of [x] is below the value
    of [y]. *)
Lemma ltb_to_Q (x y : float32) :
  valid x = true -> valid y = true ->
  is_finite x = true -> is_finite y = true ->
  ltb x y = true <-> (to_Q x < to_Q y)%Q.
Proof.
  intros Vx Vy Fx Fy. rewrite (Qlt_scaled x y Vx Vy).
  unfold ltb, SFltb. rewrite (SFcompare_scaled x y Vx Vy Fx Fy).
  destruct (Z.compare_spec (scaled x) (scaled y)); split;
    intros; try lia; try discriminate; reflexivity.
Qed.

End Order.

(** ** Alpha test *)

Section AlphaTest.

Import B32 B32Rel.

(** The literal [0.37647f] in binary32. *)
Lemma alpha_literal :
  (fconst (37647 # 100000) : float32) = S754_finite false 12632237 (-25).
Proof. vm_compute. reflexivity. Qed.

(** It is the binary32 number nearest to 0.37647: they differ by less than
    half a unit in the last place, [2^-26]. *)
Lemma alpha_literal_nearest :
  ((37647 # 100000) - (1 # 2 ^ 26) < to_Q (fconst (37647 # 100000)))%Q
  /\ (to_Q (fconst (37647 # 100000)) < (37647 # 100000) + (1 # 2 ^ 26))%Q.
Proof. rewrite alpha_literal. split; vm_compute; reflexivity. Qed.

Lemma alpha_literal_below_0x60 :
  (to_Q (fconst (37647 # 100000)) < 96 # 255)%Q.
Proof. rewrite alpha_literal. vm_compute. reflexivity. Qed.

Lemma FailsAlphaTest_iff (alpha : float32) :
  valid alpha = true -> is_finite alpha = true ->
  FailsAlphaTest alpha = true <-> (to_Q alpha < to_Q (fconst (37647 # 100000)))%Q.
Proof.
  intros V Fin. unfold FailsAlphaTest. cbn [fltb binary32].
  apply ltb_to_Q; try assumption; rewrite alpha_literal; reflexivity.
Qed.

Lemma FailsAlphaTest_levels :
  forallb (fun k => Bool.eqb (FailsAlphaTest (unorm8 k)) (k <? 96))
          (map Z.of_nat (seq 0 256)) = true.
Proof. vm_compute. reflexivity. Qed.

End AlphaTest.

(** C1, as stated, fails: the binary32 number [12632237 * 2^-25], which is
    the literal [0.37647f] itself, lies in the interval from 0 to 0x60/0xFF
    and does not fail the alpha test; the same holds of the rational 0.37647
    in exact arithmetic. *)
Lemma FailsAlphaTest_below_0x60_counterexample :
  B32.valid (S754_finite false 12632237 (-25)) = true
  /\ (0 <= B32.to_Q (S754_finite false 12632237 (-25)))%Q
  /\ (B32.to_Q (S754_finite false 12632237 (-25)) < 96 # 255)%Q
  /\ FailsAlphaTest (S754_finite false 12632237 (-25) : B32.float32) = false
  /\ (0 <= Q2Qc (37647 # 100000))%Qc
  /\ (Q2Qc (37647 # 100000) < Q2Qc (96 # 255))%Qc
  /\ FailsAlphaTest (Q2Qc (37647 # 100000)) = false.
Proof.
  repeat split; try (vm_compute; reflexivity); vm_compute; discriminate.
Qed.

(** C1, amended: the threshold is the binary32 literal [0.37647f], which is
    [12632237 * 2^-25], below 0x60/0xFF.  A valid finite [alpha] fails the
    test exactly when its value is below that of the literal; so it does
    not on the whole interval from 0x60/0xFF up, the boundary included, and
    the 8-bit level [k/255] fails exactly when [k < 0x60]. *)
Theorem FailsAlphaTest_threshold :
  forall alpha : B32.float32,
    B32.valid alpha = true -> B32.is_finite alpha = true ->
    (FailsAlphaTest alpha = true <-> (B32.to_Q alpha < 12632237 # 2 ^ 25)%Q)
    /\ ((B32.to_Q alpha < 12632237 # 2 ^ 25)%Q -> FailsAlphaTest alpha = true)
    /\ ((12632237 # 2 ^ 25 <= B32.to_Q alpha)%Q -> FailsAlphaTest alpha = false)
    /\ ((96 # 255 <= B32.to_Q alpha)%Q -> FailsAlphaTest alpha = false)
    /\ (B32.to_Q (fconst (37647 # 100000)) == 12632237 # 2 ^ 25)%Q
    /\ FailsAlphaTest (unorm8 96) = false
    /\ (forall k : Z, 0 <= k <= 255 -> FailsAlphaTest (unorm8 k) = (k <? 96)).
Proof.
  intros alpha V Fin.
  pose proof (FailsAlphaTest_iff alpha V Fin) as Hiff.
  assert (Hlit : (B32.to_Q (fconst (37647 # 100000)) == 12632237 # 2 ^ 25)%Q)
    by (rewrite alpha_literal; vm_compute; reflexivity).
  rewrite Hlit in Hiff.
  assert (Hge : (12632237 # 2 ^ 25 <= B32.to_Q alpha)%Q -> FailsAlphaTest alpha = false).
  { intros Hle. destruct (FailsAlphaTest alpha) eqn:E; [|reflexivity].
    apply Qle_not_lt in Hle. exfalso. apply Hle, Hiff. reflexivity. }
  split; [exact Hiff|]. split; [apply Hiff|]. split; [exact Hge|].
  split.
  { intros Hle. apply Hge. apply Qle_trans with (96 # 255)%Q; [|exact Hle].
    vm_compute. discriminate. }
  split; [exact Hlit|]. split; [vm_compute; reflexivity|].
  intros k Hk.
  pose proof FailsAlphaTest_levels as Hall. rewrite forallb_forall in Hall.
  apply Bool.eqb_prop, Hall.
  apply in_map_iff. exists (Z.to_nat k). split; [lia|].
  apply in_seq. lia.
Qed.

Lemma FailsAlphaTest_threshold_witness :
  FailsAlphaTest (unorm8 95) = true <-> (B32.to_Q (unorm8 95) < 12632237 # 2 ^ 25)%Q.
Proof.
  refine (proj1 (FailsAlphaTest_threshold (unorm8 95) _ _));
    vm_compute; reflexivity.
Defined.

Section SaturateClaims.

Import B32.

Lemma saturate_saturates (x : float32) : saturates x (saturate x).
Proof.
  unfold saturates. split; [apply saturate_below|].
  split; [apply saturate_above|].
  intros H0 H1. apply saturate_between; apply leb_not_ltb; assumption.
Qed.

Lemma saturate_not_outside (x : float32) : not_outside_unit (saturate x).
Proof. split; [apply saturate_not_below | apply saturate_not_above]. Qed.

End SaturateClaims.

(** C5: [saturate(x)] is 0 when [x < 0], 1 when [x > 1] and [x] itself when
    [0 <= x] and [x <= 1]; the [vec3] overload is the scalar one applied to
    each component, so each component of its result obeys the same three
    cases on the same component of its argument. *)
Theorem saturate_clamps :
  forall (x : B32.float32) (v : vec3 B32.float32),
    saturates x (saturate x)
    /\ saturate3 v = Vec3 (saturate (x3 v)) (saturate (y3 v)) (saturate (z3 v))
    /\ saturates (x3 v) (x3 (saturate3 v))
    /\ saturates (y3 v) (y3 (saturate3 v))
    /\ saturates (z3 v) (z3 (saturate3 v)).
Proof.
  intros x v. rewrite saturate3_components. cbn [x3 y3 z3].
  repeat split; apply saturate_saturates.
Qed.

Lemma saturate_clamps_witness :
  saturate (fconst (-3 # 2) : B32.float32) = fconst 0
  /\ saturate (fconst (5 # 2) : B32.float32) = fconst 1
  /\ saturate (fconst (3 # 4) : B32.float32) = fconst (3 # 4).
Proof.
  pose (v := Vec3 (fconst 0) (fconst 0) (fconst 0) : vec3 B32.float32).
  split; [|split].
  - apply (proj1 (proj1 (saturate_clamps (fconst (-3 # 2)) v))).
    vm_compute. reflexivity.
  - apply (proj1 (proj2 (proj1 (saturate_clamps (fconst (5 # 2)) v)))).
    vm_compute. reflexivity.
  - apply (proj2 (proj2 (proj1 (saturate_clamps (fconst (3 # 4)) v))));
      vm_compute; reflexivity.
Defined.

(** C9, as stated, fails on NaN: neither comparison of [clamp] holds of a
    NaN argument, which therefore is returned as it is, and NaN does not
    lie in the interval from 0 to 1. *)
Lemma saturate_range_counterexample :
  saturate (S754_nan : B32.float32) = S754_nan
  /\ B32.leb (fconst 0) (saturate (S754_nan : B32.float32)) = false
  /\ B32.leb (saturate (S754_nan : B32.float32)) (fconst 1) = false
  /\ ~ inside_unit (saturate (S754_nan : B32.float32)).
Proof.
  split; [reflexivity|]. split; [reflexivity|]. split; [reflexivity|].
  intros [H _]. vm_compute in H. discriminate.
Qed.

(** C9, amended: [saturate] is idempotent, on scalars and on [vec3], so
    every result is a fixed point; every result never compares below 0 or
    above 1; and when the argument is not NaN the result lies in the
    interval from 0 to 1, componentwise on [vec3]. *)
Theorem saturate_idempotent :
  forall (x : B32.float32) (v : vec3 B32.float32),
    saturate (saturate x) = saturate x
    /\ saturate3 (saturate3 v) = saturate3 v
    /\ not_outside_unit (saturate x)
    /\ not_outside_unit (x3 (saturate3 v))
    /\ not_outside_unit (y3 (saturate3 v))
    /\ not_outside_unit (z3 (saturate3 v))
    /\ (B32.is_nan x = false -> inside_unit (saturate x))
    /\ (B32.is_nan (x3 v) = false -> inside_unit (x3 (saturate3 v)))
    /\ (B32.is_nan (y3 v) = false -> inside_unit (y3 (saturate3 v)))
    /\ (B32.is_nan (z3 v) = false -> inside_unit (z3 (saturate3 v))).
Proof.
  intros x v. rewrite !saturate3_components. cbn [x3 y3 z3].
  rewrite !saturate_idem.
  repeat split; try apply saturate_not_below; try apply saturate_not_above;
    apply saturate_in_range; assumption.
Qed.

Lemma saturate_idempotent_witness :
  inside_unit (saturate (fconst (5 # 2) : B32.float32)).
Proof.
  pose (v := Vec3 (fconst 0) (fconst 0) (fconst 0) : vec3 B32.float32).
  apply (proj1 (proj2 (proj2 (proj2 (proj2 (proj2
           (proj2 (saturate_idempotent (fconst (5 # 2)) v)))))))).
  vm_compute. reflexivity.
Defined.

(** ** Binary32 arithmetic on zeros and equality up to the sign of zero *)

Section Zeros.

Import B32 B32Rel.

Lemma same_refl (x : float32) : same x x.
Proof. left. reflexivity. Qed.

Lemma same_sym (x y : float32) : same x y -> same y x.
Proof. intros [->|[? ?]]; [left|right]; auto. Qed.

Lemma same_trans (x y z : float32) : same x y -> same y z -> same x z.
Proof.
  intros [->|[Hx Hy]] [->|[Hy' Hz]]; try (left; reflexivity);
    right; auto.
Qed.

Lemma same_zeros (x y : float32) :
  is_zero x = true -> is_zero y = true -> same x y.
Proof. right. auto. Qed.

(** The GLSL [==] relates exactly the data that are [same] and not NaN. *)
Lemma eqb_same (x y : float32) :
  eqb x y = true <-> same x y /\ is_nan x = false.
Proof.
  unfold eqb, SFeqb, same. split.
  - destruct x as [sx|sx| |sx mx ex], y as [sy|sy| |sy my ey]; simpl;
      try discriminate; try (destruct sx; discriminate);
      try (destruct sy; discriminate); try (right; auto; fail).
    + auto.
    + destruct sx, sy; try discriminate; auto.
    + pose proof (Pos.compare_eq mx my) as Hm. unfold Pos.compare in Hm.
      destruct sx, sy; try discriminate;
        destruct (Z.compare_spec ex ey) as [->| |]; try discriminate;
        destruct (Pos.compare_cont Eq mx my); try discriminate;
        rewrite Hm by reflexivity; auto.
  - intros [[<-|[Zx Zy]] Hn].
    + destruct x as [sx|sx| |sx mx ex]; simpl; try discriminate;
        try (destruct sx; reflexivity).
      rewrite Z.compare_refl, Pos.compare_cont_refl. destruct sx; reflexivity.
    + destruct x, y; try discriminate. reflexivity.
Qed.

Lemma mul_zero_r (x : float32) (s : bool) :
  is_finite x = true -> is_zero (mul x (S754_zero s)) = true.
Proof. destruct x; try discriminate; reflexivity. Qed.

Lemma mul_zero_l (x : float32) (s : bool) :
  is_finite x = true -> is_zero (mul (S754_zero s) x) = true.
Proof. destruct x; try discriminate; reflexivity. Qed.

Lemma add_zeros (x y : float32) :
  is_zero x = true -> is_zero y = true -> is_zero (add x y) = true.
Proof.
  destruct x as [sx| | |], y as [sy| | |]; try discriminate.
  destruct sx, sy; reflexivity.
Qed.

Lemma add_zero_r (x z : float32) : is_zero z = true -> same (add x z) x.
Proof.
  destruct z as [sz| | |]; try discriminate. intros _.
  destruct x as [sx|sx| |sx mx ex]; try (left; reflexivity).
  right. destruct sx, sz; split; reflexivity.
Qed.

Lemma add_zero_l (x z : float32) : is_zero z = true -> same (add z x) x.
Proof.
  destruct z as [sz| | |]; try discriminate. intros _.
  destruct x as [sx|sx| |sx mx ex]; try (left; reflexivity).
  right. destruct sx, sz; split; reflexivity.
Qed.

(** Addition, multiplication and comparison do not tell the two zeros
    apart, except by the sign of a zero result. *)
Lemma add_same (a a' b b' : float32) :
  same a a' -> same b b' -> same (add a b) (add a' b').
Proof.
  intros [->|[Za Za']] [->|[Zb Zb']]; [apply same_refl| | |].
  - apply same_trans with a'; [apply add_zero_r | apply same_sym, add_zero_r];
      assumption.
  - apply same_trans with b'; [apply add_zero_l | apply same_sym, add_zero_l];
      assumption.
  - apply same_zeros; apply add_zeros; assumption.
Qed.

Lemma mul_same (a a' b b' : float32) :
  same a a' -> same b b' -> same (mul a b) (mul a' b').
Proof.
  intros [->|[Za Za']] [->|[Zb Zb']]; [apply same_refl| | |].
  - destruct b as [sb| | |]; try discriminate.
    destruct b' as [sb'| | |]; try discriminate.
    destruct a' as [sa|sa| |sa ma ea]; try (left; reflexivity);
      right; split; reflexivity.
  - destruct a as [sa| | |]; try discriminate.
    destruct a' as [sa'| | |]; try discriminate.
    destruct b' as [sb|sb| |sb mb eb]; try (left; reflexivity);
      right; split; reflexivity.
  - destruct a as [sa| | |], a' as [sa'| | |], b as [sb| | |], b' as [sb'| | |];
      try discriminate. right. split; reflexivity.
Qed.

Lemma compare_same (a a' b b' : float32) :
  same a a' -> same b b' -> SFcompare a b = SFcompare a' b'.
Proof.
  intros [->|[Za Za']] [->|[Zb Zb']]; [reflexivity| | |].
  - destruct b as [sb| | |]; try discriminate.
    destruct b' as [sb'| | |]; try discriminate.
    destruct a'; reflexivity.
  - destruct a as [sa| | |]; try discriminate.
    destruct a' as [sa'| | |]; try discriminate.
    destruct b'; reflexivity.
  - destruct a as [sa| | |], a' as [sa'| | |], b as [sb| | |], b' as [sb'| | |];
      try discriminate. reflexivity.
Qed.

Lemma ltb_same (a a' b b' : float32) :
  same a a' -> same b b' -> ltb a b = ltb a' b'.
Proof.
  intros Ha Hb. unfold ltb, SFltb. rewrite (compare_same a a' b b' Ha Hb).
  reflexivity.
Qed.

End Zeros.

(** ** Multiplication by 1 in binary32 *)

Section MulOne.

Import B32 B32Rel.

Lemma shr_23 (m : positive) :
  SpecFloat.iter_pos shr_1 23 (Build_shr_record (Zpos (8388608 * m)) false false)
  = Build_shr_record (Zpos m) false false.
Proof. reflexivity. Qed.

Lemma digits_shl_23 (m : positive) :
  Zpos (digits2_pos (8388608 * m)) = Zpos (digits2_pos m) + 23.
Proof.
  change (digits2_pos (8388608 * m))
    with (Pos.iter Pos.succ (digits2_pos m) 23).
  cbn [Pos.iter]. rewrite !Pos2Z.inj_succ. lia.
Qed.

(** The product of 1 and a valid finite datum is that datum: the 47-bit
    product of the mantissas is shifted back by 23 bits, all of them 0, so
    nothing is rounded. *)
Lemma mul_one_l (x : float32) :
  valid x = true -> is_finite x = true -> mul (fconst 1) x = x.
Proof.
  rewrite fconst_1.
  destruct x as [s|s| |s m e]; try discriminate; [reflexivity|].
  unfold valid, valid_binary. intros V _.
  unfold bounded, canonical_mantissa, fexp, SpecFloat.emin, prec, emax in V.
  rewrite andb_true_iff, Z.eqb_eq, Z.leb_le in V. destruct V as [Hc He].
  unfold mul, SFmul, binary_round_aux, shr_fexp, fexp, SpecFloat.emin, prec, emax.
  cbn [xorb Zdigits2 shr_record_of_loc].
  rewrite digits_shl_23.
  replace (Z.max (Z.pos (digits2_pos m) + 23 + (-23 + e) - 24) (3 - 128 - 24)
           - (-23 + e)) with 23 by lia.
  cbn [shr]. rewrite shr_23.
  cbn [shr_m loc_of_shr_record round_nearest_even Zdigits2].
  replace (-23 + e + 23) with e by lia.
  replace (Z.max (Z.pos (digits2_pos m) + e - 24) (3 - 128 - 24) - e)
    with 0 by lia.
  cbn [shr shr_m].
  replace (e <=? 128 - 24) with true by (symmetry; apply Z.leb_le; lia).
  reflexivity.
Qed.

End MulOne.

(** ** Normal transform *)

Section Normal.

Import B32 B32Rel.

Local Abbreviation TN := (TransformNormal (F := float32)).

Lemma TransformNormal_unfold {F : Type} `{FloatOps F} (v : vec3 F) (m : mat4 F) :
  TransformNormal v m
  = Vec3 (x4 (col0 m) * x3 v + x4 (col1 m) * y3 v + x4 (col2 m) * z3 v
          + x4 (col3 m) * fconst 0)%glsl
         (y4 (col0 m) * x3 v + y4 (col1 m) * y3 v + y4 (col2 m) * z3 v
          + y4 (col3 m) * fconst 0)%glsl
         (z4 (col0 m) * x3 v + z4 (col1 m) * y3 v + z4 (col2 m) * z3 v
          + z4 (col3 m) * fconst 0)%glsl.
Proof. reflexivity. Qed.

Lemma finite3_elim (v : vec3 float32) :
  finite3 v = true ->
  is_finite (x3 v) = true /\ is_finite (y3 v) = true /\ is_finite (z3 v) = true.
Proof. unfold finite3. rewrite !andb_true_iff. tauto. Qed.

Lemma valid3_elim (v : vec3 float32) :
  valid3 v = true ->
  valid (x3 v) = true /\ valid (y3 v) = true /\ valid (z3 v) = true.
Proof. unfold valid3. rewrite !andb_true_iff. tauto. Qed.

Lemma finite4_elim (v : vec4 float32) :
  finite4 v = true ->
  is_finite (x4 v) = true /\ is_finite (y4 v) = true
  /\ is_finite (z4 v) = true /\ is_finite (w4 v) = true.
Proof. unfold finite4. rewrite !andb_true_iff. tauto. Qed.

(** A finite entry of the fourth column contributes a zero, which the sum
    absorbs. *)
Lemma add_mul_zero_same (s c c' : float32) :
  is_finite c = true -> is_finite c' = true ->
  same (add s (mul c (fconst 0))) (add s (mul c' (fconst 0))).
Proof.
  intros Hc Hc'. rewrite fconst_0.
  apply add_same; [apply same_refl|].
  apply same_zeros; apply mul_zero_r; assumption.
Qed.

Lemma TransformNormal_col3 (v : vec3 float32) (m : mat4 float32) (c c' : vec4 float32) :
  finite3 (xyz c) = true -> finite3 (xyz c') = true ->
  same3 (TN v (with_col3 m c)) (TN v (with_col3 m c')).
Proof.
  intros Hc Hc'.
  apply finite3_elim in Hc; apply finite3_elim in Hc'. cbn [xyz x3 y3 z3] in *.
  rewrite !TransformNormal_unfold. unfold same3, with_col3.
  cbn [x3 y3 z3 col0 col1 col2 col3 fadd fmul binary32].
  repeat split; apply add_mul_zero_same; tauto.
Qed.

(** An entry of the fourth column that is not finite poisons its row: the
    product with the forced 0 is NaN, and so is every sum with it. *)
Lemma add_mul_not_finite (s c : float32) :
  is_finite c = false -> add s (mul c (fconst 0)) = S754_nan.
Proof.
  intros Hc. rewrite fconst_0.
  destruct c as [sc|sc| |sc mc ec]; try discriminate;
    destruct s; reflexivity.
Qed.

Lemma TransformNormal_col3_not_finite
    (v : vec3 float32) (m : mat4 float32) (c : vec4 float32) :
  (is_finite (x4 c) = false -> x3 (TN v (with_col3 m c)) = S754_nan)
  /\ (is_finite (y4 c) = false -> y3 (TN v (with_col3 m c)) = S754_nan)
  /\ (is_finite (z4 c) = false -> z3 (TN v (with_col3 m c)) = S754_nan).
Proof.
  rewrite TransformNormal_unfold. unfold with_col3.
  cbn [x3 y3 z3 col0 col1 col2 col3 fadd fmul binary32].
  repeat split; apply add_mul_not_finite.
Qed.

Lemma TransformNormal_translation (v t : vec3 float32) :
  valid3 v = true -> finite3 v = true -> finite3 t = true ->
  same3 (TN v (translation t)) v.
Proof.
  intros Hv Hf Ht.
  apply valid3_elim in Hv. apply finite3_elim in Hf. apply finite3_elim in Ht.
  destruct Hv as (Vx & Vy & Vz), Hf as (Fx & Fy & Fz), Ht as (Tx & Ty & Tz).
  rewrite TransformNormal_unfold. unfold same3, translation.
  cbn [x3 y3 z3 x4 y4 z4 col0 col1 col2 col3 fadd fmul binary32].
  rewrite !mul_one_l by assumption. rewrite fconst_0.
  pose proof (mul_zero_l _ false Fx) as Zx.
  pose proof (mul_zero_l _ false Fy) as Zy.
  pose proof (mul_zero_l _ false Fz) as Zz.
  pose proof (mul_zero_r _ false Tx) as Ztx.
  pose proof (mul_zero_r _ false Ty) as Zty.
  pose proof (mul_zero_r _ false Tz) as Ztz.
  split; [|split].
  - eapply same_trans; [apply add_zero_r, Ztx|].
    eapply same_trans; [apply add_zero_r, Zz|].
    apply add_zero_r, Zy.
  - eapply same_trans; [apply add_zero_r, Zty|].
    eapply same_trans; [apply add_zero_r, Zz|].
    apply add_zero_l, Zx.
  - eapply same_trans; [apply add_zero_r, Ztz|].
    apply add_zero_l, add_zeros; assumption.
Qed.



End Normal.

(** Exact arithmetic: the fourth column drops out and the map is linear. *)
Section NormalExact.

Local Abbreviation TNq := (TransformNormal (F := Qc)).

Lemma vec3_eq {F : Type} (a b : vec3 F) :
  x3 a = x3 b -> y3 a = y3 b -> z3 a = z3 b -> a = b.
Proof. destruct a, b; simpl; congruence. Qed.

(** Componentwise, an identity of rational polynomials. *)
Ltac exact_vec3 :=
  apply vec3_eq; cbn;
  change (Q2Qc 0) with 0%Qc; change (Q2Qc 1) with 1%Qc; ring.

Lemma TransformNormal_exact_col3 (v : vec3 Qc) (m : mat4 Qc) (c c' : vec4 Qc) :
  TNq v (with_col3 m c) = TNq v (with_col3 m c').
Proof. exact_vec3. Qed.

Lemma TransformNormal_exact_translation (v t : vec3 Qc) :
  TNq v (translation t) = v.
Proof. exact_vec3. Qed.

Lemma TransformNormal_exact_zero (m : mat4 Qc) :
  TNq (Vec3 (fconst 0) (fconst 0) (fconst 0)) m
  = Vec3 (fconst 0) (fconst 0) (fconst 0).
Proof. exact_vec3. Qed.

Lemma TransformNormal_exact_add (a b : vec3 Qc) (m : mat4 Qc) :
  TNq (vec3_add a b) m = vec3_add (TNq a m) (TNq b m).
Proof. exact_vec3. Qed.

Lemma TransformNormal_exact_scale (c : Qc) (a : vec3 Qc) (m : mat4 Qc) :
  TNq (vec3_scale c a) m = vec3_scale c (TNq a m).
Proof. exact_vec3. Qed.

End NormalExact.

(** C4, as stated, fails on a fourth column that is not finite: the
    translation by [(+infinity, 0, 0)] sends the direction [(1, 0, 0)] to
    [(NaN, 0, 0)], since [infinity * 0] is NaN, while the translation by
    [(0, 0, 0)] leaves it unchanged. *)
Lemma TransformNormal_translation_counterexample :
  TransformNormal (along_x (fconst 1) : vec3 B32.float32)
    (translation (along_x (S754_infinity false)))
  = along_x S754_nan
  /\ TransformNormal (along_x (fconst 1) : vec3 B32.float32)
       (translation (along_x (fconst 0)))
     = along_x (fconst 1)
  /\ ~ B32Rel.same3
        (TransformNormal (along_x (fconst 1) : vec3 B32.float32)
           (translation (along_x (S754_infinity false))))
        (along_x (fconst 1)).
Proof.
  split; [vm_compute; reflexivity|]. split; [vm_compute; reflexivity|].
  intros ([E|[E _]] & _); vm_compute in E; discriminate.
Qed.

(** C4, amended: [TransformNormal(v, m)] is the [xyz] of [m * vec4(v, 0)].
    In binary32 two finite fourth columns give the same result, up to the
    sign of a zero component, on every [v] and every first three columns;
    the translation by a finite [t] leaves a valid finite direction
    unchanged, up to the sign of a zero component; and an entry of the
    fourth column that is infinite or NaN makes the component of the result
    in its row NaN, on every [v] and every first three columns.  In exact
    arithmetic the fourth column never matters and a translation leaves
    every direction unchanged. *)
Theorem TransformNormal_drops_translation :
  forall (v t : vec3 B32.float32) (m : mat4 B32.float32) (c c' : vec4 B32.float32),
    TransformNormal v m = xyz (mat4_mul_vec4 m (vec4_of v (fconst 0)))
    /\ (B32Rel.finite3 (xyz c) = true -> B32Rel.finite3 (xyz c') = true ->
        B32Rel.same3 (TransformNormal v (with_col3 m c))
                     (TransformNormal v (with_col3 m c')))
    /\ (B32Rel.valid3 v = true -> B32Rel.finite3 v = true ->
        B32Rel.finite3 t = true ->
        B32Rel.same3 (TransformNormal v (translation t)) v)
    /\ (forall (vq tq : vec3 Qc) (mq : mat4 Qc) (cq cq' : vec4 Qc),
          TransformNormal vq (with_col3 mq cq) = TransformNormal vq (with_col3 mq cq')
          /\ TransformNormal vq (translation tq) = vq)
    /\ (B32.is_finite (x4 c) = false ->
        x3 (TransformNormal v (with_col3 m c)) = S754_nan)
    /\ (B32.is_finite (y4 c) = false ->
        y3 (TransformNormal v (with_col3 m c)) = S754_nan)
    /\ (B32.is_finite (z4 c) = false ->
        z3 (TransformNormal v (with_col3 m c)) = S754_nan).
Proof.
  intros v t m c c'.
  split; [reflexivity|].
  split; [apply TransformNormal_col3|].
  split; [apply TransformNormal_translation|].
  split.
  { intros vq tq mq cq cq'. split.
    - apply TransformNormal_exact_col3.
    - apply TransformNormal_exact_translation. }
  apply TransformNormal_col3_not_finite.
Qed.

Lemma TransformNormal_drops_translation_witness :
  B32Rel.same3
    (TransformNormal (Vec3 (fconst (3 # 5)) (fconst 0) (fconst (-4 # 5)))
       (translation (Vec3 (fconst 100) (fconst (-20)) (fconst (1 # 3)))))
    (Vec3 (fconst (3 # 5)) (fconst 0) (fconst (-4 # 5)))
  /\ B32Rel.same3
       (TransformNormal (Vec3 (fconst (3 # 5)) (fconst 0) (fconst (-4 # 5)))
          (with_col3 (scale_x (fconst 3))
             (Vec4 (fconst 7) (fconst 8) (fconst 9) (fconst 1))))
       (TransformNormal (Vec3 (fconst (3 # 5)) (fconst 0) (fconst (-4 # 5)))
          (with_col3 (scale_x (fconst 3))
             (Vec4 (fconst 0) (fconst 0) (fconst 0) (fconst 1))))
  /\ y3 (TransformNormal (Vec3 (fconst (3 # 5)) (fconst 0) (fconst (-4 # 5)))
           (with_col3 (scale_x (fconst 3))
              (Vec4 (fconst 7) (S754_infinity true) S754_nan (fconst 1))))
     = S754_nan.
Proof.
  split; [|split].
  - refine (proj1 (proj2 (proj2
      (TransformNormal_drops_translation _ _ (scale_x (fconst 3))
         (Vec4 (fconst 7) (fconst 8) (fconst 9) (fconst 1))
         (Vec4 (fconst 0) (fconst 0) (fconst 0) (fconst 1))))) _ _ _);
      vm_compute; reflexivity.
  - refine (proj1 (proj2
      (TransformNormal_drops_translation _
         (Vec3 (fconst 100) (fconst (-20)) (fconst (1 # 3))) _ _ _)) _ _);
      vm_compute; reflexivity.
  - refine (proj1 (proj2 (proj2 (proj2 (proj2 (proj2
      (TransformNormal_drops_translation _
         (Vec3 (fconst 0) (fconst 0) (fconst 0)) _ _
         (Vec4 (fconst 0) (fconst 0) (fconst 0) (fconst 1)))))))) _).
    reflexivity.
Defined.


(** ** Equal arguments, equal results *)

Section Pure.

Import B32 B32Rel.

Lemma max_same (a a' b b' : float32) :
  same a a' -> same b b' -> same (max a b) (max a' b').
Proof.
  intros Ha Hb. unfold max. cbn [fltb binary32].
  rewrite (ltb_same a a' b b' Ha Hb). destruct (ltb a' b'); assumption.
Qed.

Lemma min_same (a a' b b' : float32) :
  same a a' -> same b b' -> same (min a b) (min a' b').
Proof.
  intros Ha Hb. unfold min. cbn [fltb binary32].
  rewrite (ltb_same b b' a a' Hb Ha). destruct (ltb b' a'); assumption.
Qed.

Lemma FailsAlphaTest_same (a a' : float32) :
  same a a' -> FailsAlphaTest a = FailsAlphaTest a'.
Proof. intros Ha. apply ltb_same; [assumption | apply same_refl]. Qed.

Lemma saturate_same (x x' : float32) :
  same x x' -> same (saturate x) (saturate x').
Proof.
  intros Hx. unfold saturate, clamp.
  apply min_same; [apply max_same|]; assumption || apply same_refl.
Qed.

Lemma saturate3_same (v v' : vec3 float32) :
  same3 v v' -> same3 (saturate3 v) (saturate3 v').
Proof.
  intros (Hx & Hy & Hz). rewrite !saturate3_components.
  repeat split; apply saturate_same; assumption.
Qed.

Lemma CalculateClippingPlane_same
    (p p' : vec3 float32) (b : bool) (plane plane' : vec4 float32) :
  same3 p p' -> same4 plane plane' ->
  same (CalculateClippingPlane p b plane) (CalculateClippingPlane p' b plane').
Proof.
  intros (Hx & Hy & Hz) (Px & Py & Pz & Pw).
  destruct b; [|apply same_refl].
  unfold CalculateClippingPlane, dot, vec4_of.
  cbn [x4 y4 z4 w4 fadd fmul binary32].
  repeat apply add_same; apply mul_same; assumption || apply same_refl.
Qed.

End Pure.

(** * Further properties *)

(** ** The order of binary32 as an order of integers *)

Section OrderKey.

Import B32 B32Rel B32Order.

Lemma huge_pos : 0 < huge.
Proof. reflexivity. Qed.

Lemma huge_split : huge = 16777216 * 2 ^ 253.
Proof. reflexivity. Qed.

Lemma scaled_bound (x : float32) :
  valid x = true -> - huge < scaled x < huge.
Proof.
  pose proof huge_pos as Hh.
  destruct x as [s|s| |s m e]; cbn [scaled]; try lia.
  unfold valid, valid_binary. intros V.
  destruct (bounded_range _ _ V) as (He & Hm & _).
  change (2 ^ 24) with 16777216 in Hm.
  pose proof (Z.pow_le_mono_r 2 (e + 149) 253 ltac:(lia) ltac:(lia)) as Hp.
  pose proof (Z.pow_pos_nonneg 2 (e + 149) ltac:(lia) ltac:(lia)) as Hq.
  rewrite huge_split in *.
  assert (Z.pos m * 2 ^ (e + 149) < 16777216 * 2 ^ 253) by nia.
  assert (0 < Z.pos m * 2 ^ (e + 149)) by nia.
  destruct s; cbn [cond_Zopp]; lia.
Qed.

(** Decides a goal [(a ?= b) = c] from the linear facts at hand. *)
Ltac zcompare :=
  match goal with
  | |- (?a ?= ?b) = _ =>
      destruct (Z.compare_spec a b); try reflexivity; exfalso; lia
  end.

(** On valid data other than NaN, [SFcompare] is the comparison of keys. *)
Lemma SFcompare_key (x y : float32) :
  valid x = true -> valid y = true ->
  is_nan x = false -> is_nan y = false ->
  SFcompare x y = Some (key x ?= key y).
Proof.
  intros Vx Vy Nx Ny.
  pose proof huge_pos as Hh.
  pose proof (scaled_bound x Vx) as Bx. pose proof (scaled_bound y Vy) as By.
  destruct (is_finite x) eqn:Fx, (is_finite y) eqn:Fy.
  - rewrite (SFcompare_scaled x y Vx Vy Fx Fy).
    destruct x, y; try discriminate; reflexivity.
  - destruct y as [|sy| |]; try discriminate.
    destruct x as [sx| | |sx mx ex]; try discriminate;
      destruct sy; cbn [SFcompare key] in *; f_equal; symmetry; zcompare.
  - destruct x as [|sx| |]; try discriminate.
    destruct y as [sy| | |sy my ey]; try discriminate;
      destruct sx; cbn [SFcompare key] in *; f_equal; symmetry; zcompare.
  - destruct x as [|sx| |]; try discriminate.
    destruct y as [|sy| |]; try discriminate.
    destruct sx, sy; cbn [SFcompare key]; f_equal; symmetry; zcompare.
Qed.

Lemma ltb_key (x y : float32) :
  valid x = true -> valid y = true ->
  is_nan x = false -> is_nan y = false ->
  ltb x y = true <-> key x < key y.
Proof.
  intros Vx Vy Nx Ny. unfold ltb, SFltb.
  rewrite (SFcompare_key x y Vx Vy Nx Ny).
  destruct (Z.compare_spec (key x) (key y)); split; intros;
    try lia; try discriminate; reflexivity.
Qed.

Lemma ltb_false_key (x y : float32) :
  valid x = true -> valid y = true ->
  is_nan x = false -> is_nan y = false ->
  ltb x y = false <-> key y <= key x.
Proof.
  intros Vx Vy Nx Ny. unfold ltb, SFltb.
  rewrite (SFcompare_key x y Vx Vy Nx Ny).
  destruct (Z.compare_spec (key x) (key y)); split; intros;
    try lia; try discriminate; reflexivity.
Qed.

Lemma leb_key (x y : float32) :
  valid x = true -> valid y = true ->
  is_nan x = false -> is_nan y = false ->
  leb x y = true <-> key x <= key y.
Proof.
  intros Vx Vy Nx Ny. unfold leb, SFleb.
  rewrite (SFcompare_key x y Vx Vy Nx Ny).
  destruct (Z.compare_spec (key x) (key y)); split; intros;
    try lia; try discriminate; reflexivity.
Qed.

(** A comparison that holds has no NaN operand. *)
Lemma leb_not_nan (x y : float32) :
  leb x y = true -> is_nan x = false /\ is_nan y = false.
Proof. destruct x, y; try discriminate; auto. Qed.

Lemma ltb_not_nan (x y : float32) :
  ltb x y = true -> is_nan x = false /\ is_nan y = false.
Proof. destruct x, y; try discriminate; auto. Qed.

End OrderKey.

(** ** Saturation and the alpha test in the order of binary32 *)

Section SaturateOrder.

Import B32 B32Rel B32Order.

Local Abbreviation sat := (saturate (F := float32)).
Local Abbreviation lit := (fconst (37647 # 100000) : float32).

Lemma valid_0 : valid (fconst 0) = true.
Proof. reflexivity. Qed.

Lemma valid_1 : valid (fconst 1) = true.
Proof. reflexivity. Qed.

Lemma valid_lit : valid lit = true.
Proof. vm_compute. reflexivity. Qed.

Lemma key_0 : key (fconst 0) = 0.
Proof. reflexivity. Qed.

Lemma key_1_pos : 0 < key (fconst 1).
Proof. reflexivity. Qed.

Lemma key_lit : 0 < key lit < key (fconst 1).
Proof. split; reflexivity. Qed.

Lemma saturate_valid (x : float32) : valid x = true -> valid (sat x) = true.
Proof.
  intros V.
  destruct (saturate_trichotomy x) as [[_ ->]|[(_ & _ & ->)|(_ & _ & ->)]];
    [reflexivity | reflexivity | exact V].
Qed.

Lemma saturate_not_infinite (x : float32) (s : bool) :
  sat x <> S754_infinity s.
Proof.
  destruct (saturate_trichotomy x) as [[_ ->]|[(_ & _ & ->)|(H0 & H1 & ->)]];
    try (vm_compute; discriminate).
  intros ->. destruct s; discriminate.
Qed.

Lemma saturate_finite (x : float32) :
  is_nan x = false -> is_finite (sat x) = true.
Proof.
  intros Hn. pose proof (saturate_nan x) as Hs. rewrite Hn in Hs.
  destruct (sat x) as [s|s| |s m e] eqn:E; try reflexivity; try discriminate.
  exfalso. exact (saturate_not_infinite x s E).
Qed.

(** In the order of binary32 [saturate] is the clamp of integers. *)
Lemma key_saturate (x : float32) :
  valid x = true -> is_nan x = false ->
  key (sat x) = Z.max 0 (Z.min (key (fconst 1)) (key x)).
Proof.
  intros V N. pose proof key_1_pos as H1.
  destruct (saturate_trichotomy x) as [[Hlo ->]|[(Hlo & Hhi & ->)|(Hlo & Hhi & ->)]].
  - apply (ltb_key x (fconst 0) V valid_0 N eq_refl) in Hlo.
    rewrite key_0 in *. lia.
  - apply (ltb_key (fconst 1) x valid_1 V eq_refl N) in Hhi. lia.
  - apply (ltb_false_key x (fconst 0) V valid_0 N eq_refl) in Hlo.
    apply (ltb_false_key (fconst 1) x valid_1 V eq_refl N) in Hhi.
    rewrite key_0 in *. lia.
Qed.

Lemma saturate_mono (x y : float32) :
  valid x = true -> valid y = true ->
  leb x y = true -> leb (sat x) (sat y) = true.
Proof.
  intros Vx Vy Hle. destruct (leb_not_nan x y Hle) as [Nx Ny].
  apply (leb_key x y Vx Vy Nx Ny) in Hle.
  apply leb_key; try apply saturate_valid; try assumption;
    try (rewrite saturate_nan; assumption).
  rewrite !key_saturate by assumption. lia.
Qed.

Lemma FailsAlphaTest_key (alpha : float32) :
  valid alpha = true -> is_nan alpha = false ->
  FailsAlphaTest alpha = true <-> key alpha < key lit.
Proof.
  intros V N. unfold FailsAlphaTest. cbn [fltb binary32].
  apply ltb_key; try assumption; [apply valid_lit | reflexivity].
Qed.

Lemma FailsAlphaTest_nan : FailsAlphaTest (S754_nan : float32) = false.
Proof. reflexivity. Qed.

Lemma FailsAlphaTest_saturate (x : float32) :
  FailsAlphaTest (sat x) = FailsAlphaTest x.
Proof.
  destruct (saturate_trichotomy x) as [[Hlo ->]|[(Hlo & Hhi & ->)|(Hlo & Hhi & ->)]];
    [| |reflexivity].
  - rewrite fconst_0 in *. unfold FailsAlphaTest. cbn [fltb binary32].
    rewrite alpha_literal.
    destruct x as [s|s| |s m e]; try discriminate; destruct s;
      try discriminate; reflexivity.
  - rewrite fconst_1 in *. unfold FailsAlphaTest. cbn [fltb binary32].
    rewrite alpha_literal.
    destruct x as [s|s| |s m e]; try discriminate; destruct s;
      try discriminate; try reflexivity.
    unfold ltb, SFltb in *. cbn [SFcompare] in *.
    destruct (Z.compare_spec (-23) e) as [He|He|He]; try discriminate;
      destruct (Z.compare_spec e (-25)); try lia; reflexivity.
Qed.

End SaturateOrder.

(** X1: the alpha test is a threshold test.  Of two valid alphas with
    [alpha <= beta], if [beta] fails the test so does [alpha], and if
    [alpha] passes so does [beta]. *)
Theorem FailsAlphaTest_downward_closed :
  forall alpha beta : B32.float32,
    B32.valid alpha = true -> B32.valid beta = true ->
    B32.leb alpha beta = true ->
    (FailsAlphaTest beta = true -> FailsAlphaTest alpha = true)
    /\ (FailsAlphaTest alpha = false -> FailsAlphaTest beta = false).
Proof.
  intros alpha beta Va Vb Hle.
  destruct (leb_not_nan alpha beta Hle) as [Na Nb].
  apply (leb_key alpha beta Va Vb Na Nb) in Hle.
  assert (Hd : FailsAlphaTest beta = true -> FailsAlphaTest alpha = true).
  { intros Hb. apply (FailsAlphaTest_key beta Vb Nb) in Hb.
    apply (FailsAlphaTest_key alpha Va Na). lia. }
  split; [exact Hd|].
  intros Ha. destruct (FailsAlphaTest beta); [|reflexivity].
  rewrite Hd in Ha by reflexivity. discriminate.
Qed.

Lemma FailsAlphaTest_downward_closed_witness :
  FailsAlphaTest (unorm8 40) = true.
Proof.
  refine (proj1 (FailsAlphaTest_downward_closed (unorm8 40) (unorm8 95) _ _ _) _);
    vm_compute; reflexivity.
Defined.

(** X2: clamping alpha to the unit interval first does not change the
    outcome of the alpha test, on any binary32 datum that is not NaN, the
    infinities included. *)
Theorem FailsAlphaTest_of_saturate :
  forall x : B32.float32,
    B32.is_nan x = false -> FailsAlphaTest (saturate x) = FailsAlphaTest x.
Proof. intros x _. apply FailsAlphaTest_saturate. Qed.

Lemma FailsAlphaTest_of_saturate_witness :
  FailsAlphaTest (saturate (S754_infinity true : B32.float32))
  = FailsAlphaTest (S754_infinity true : B32.float32).
Proof. apply FailsAlphaTest_of_saturate. reflexivity. Defined.

(** X3: [saturate] is monotone on valid data: [x <= y] gives
    [saturate(x) <= saturate(y)], and the same componentwise on [vec3]. *)
Theorem saturate_monotone :
  forall (x y : B32.float32) (v w : vec3 B32.float32),
    (B32.valid x = true -> B32.valid y = true -> B32.leb x y = true ->
     B32.leb (saturate x) (saturate y) = true)
    /\ (B32Rel.valid3 v = true -> B32Rel.valid3 w = true ->
        B32Order.leb3 v w = true ->
        B32Order.leb3 (saturate3 v) (saturate3 w) = true).
Proof.
  intros x y v w. split; [apply saturate_mono|].
  intros Vv Vw. apply valid3_elim in Vv, Vw.
  unfold B32Order.leb3. rewrite !saturate3_components. cbn [x3 y3 z3].
  rewrite !andb_true_iff. intros [[Hx Hy] Hz].
  repeat split; apply saturate_mono; tauto.
Qed.

Lemma saturate_monotone_witness :
  B32.leb (saturate (fconst (-2) : B32.float32)) (saturate (fconst (1 # 3))) = true.
Proof.
  refine (proj1 (saturate_monotone _ _ (along_x (fconst 0)) (along_x (fconst 0))) _ _ _);
    vm_compute; reflexivity.
Defined.

Section SaturateValue.

Import B32 B32Rel.

Lemma to_Q_0 : (to_Q (fconst 0) == 0)%Q.
Proof. reflexivity. Qed.

Lemma to_Q_1 : (to_Q (fconst 1) == 1)%Q.
Proof. reflexivity. Qed.

Lemma finite_0 : is_finite (fconst 0) = true.
Proof. reflexivity. Qed.

Lemma finite_1 : is_finite (fconst 1) = true.
Proof. reflexivity. Qed.

Lemma ltb_false_to_Q (x y : float32) :
  valid x = true -> valid y = true ->
  is_finite x = true -> is_finite y = true ->
  ltb x y = false -> (to_Q y <= to_Q x)%Q.
Proof.
  intros Vx Vy Fx Fy H. apply Qnot_lt_le. intros Hlt.
  apply (ltb_to_Q x y Vx Vy Fx Fy) in Hlt. congruence.
Qed.

Lemma saturate_to_Q (x : float32) :
  valid x = true -> is_finite x = true ->
  (to_Q (saturate x) == Qmin (Qmax (to_Q x) 0) 1)%Q.
Proof.
  intros V Fin.
  destruct (Q.max_spec (to_Q x) 0) as [[Hm1 Hm]|[Hm1 Hm]];
    destruct (Q.min_spec (Qmax (to_Q x) 0) 1) as [[Hn1 Hn]|[Hn1 Hn]];
    rewrite Hn; clear Hn;
    destruct (saturate_trichotomy x) as [[Hlo ->]|[(Hlo & Hhi & ->)|(Hlo & Hhi & ->)]];
    try apply (ltb_to_Q x _ V valid_0 Fin finite_0) in Hlo;
    try apply (ltb_false_to_Q x _ V valid_0 Fin finite_0) in Hlo;
    try apply (ltb_to_Q _ x valid_1 V finite_1 Fin) in Hhi;
    try apply (ltb_false_to_Q _ x valid_1 V finite_1 Fin) in Hhi;
    pose proof to_Q_0; pose proof to_Q_1; lra.
Qed.

End SaturateValue.

(** X4: on a valid finite datum [saturate] is exact: the value of
    [saturate(x)] is the value of [x] clamped between 0 and 1, with no
    rounding. *)
Theorem saturate_exact :
  forall x : B32.float32,
    B32.valid x = true -> B32.is_finite x = true ->
    (B32.to_Q (saturate x) == Qmin (Qmax (B32.to_Q x) 0) 1)%Q.
Proof. exact saturate_to_Q. Qed.

Lemma saturate_exact_witness :
  (B32.to_Q (saturate (fconst (7 # 3) : B32.float32))
   == Qmin (Qmax (B32.to_Q (fconst (7 # 3))) 0) 1)%Q.
Proof.
  apply (saturate_exact (fconst (7 # 3))); vm_compute; reflexivity.
Defined.

(** X5: [saturate] never returns an infinity; its result is finite unless
    the argument is NaN, and valid whenever the argument is; the same holds
    of each component of the [vec3] overload. *)
Theorem saturate_result_finite :
  forall (x : B32.float32) (v : vec3 B32.float32) (s : bool),
    saturate x <> S754_infinity s
    /\ (B32.is_nan x = false -> B32.is_finite (saturate x) = true)
    /\ (B32.valid x = true -> B32.valid (saturate x) = true)
    /\ x3 (saturate3 v) <> S754_infinity s
    /\ y3 (saturate3 v) <> S754_infinity s
    /\ z3 (saturate3 v) <> S754_infinity s
    /\ (B32Rel.valid3 v = true -> B32Rel.valid3 (saturate3 v) = true).
Proof.
  intros x v s. rewrite saturate3_components. cbn [x3 y3 z3].
  split; [apply saturate_not_infinite|].
  split; [apply saturate_finite|].
  split; [apply saturate_valid|].
  repeat split; try apply saturate_not_infinite.
  intros Vv. apply valid3_elim in Vv. unfold B32Rel.valid3. cbn [x3 y3 z3].
  rewrite !andb_true_iff. repeat split; apply saturate_valid; tauto.
Qed.

Lemma saturate_result_finite_witness :
  B32.is_finite (saturate (S754_infinity true : B32.float32)) = true.
Proof.
  refine (proj1 (proj2 (saturate_result_finite _ (along_x (fconst 0)) false)) _).
  reflexivity.
Defined.

(** ** Unary minus, products with 1 and the two functions on vectors *)

Section Negation.

Import B32 B32Rel B32Order.

Lemma mul_comm (x y : float32) : mul x y = mul y x.
Proof.
  unfold mul.
  destruct x as [sx|sx| |sx mx ex], y as [sy|sy| |sy my ey]; cbn [SFmul];
    rewrite ?(xorb_comm sy sx); try reflexivity.
  rewrite (Pos.mul_comm my mx), (Z.add_comm ey ex). reflexivity.
Qed.

Lemma mul_one_l_valid (x : float32) : valid x = true -> mul (fconst 1) x = x.
Proof.
  intros V. destruct (is_finite x) eqn:Fin; [apply mul_one_l; assumption|].
  rewrite fconst_1. destruct x as [s|s| |s m e]; try discriminate; reflexivity.
Qed.

Lemma mul_one_r_valid (x : float32) : valid x = true -> mul x (fconst 1) = x.
Proof. intros V. rewrite mul_comm. apply mul_one_l_valid, V. Qed.

(** Rounding does not look at the sign. *)
Lemma binary_round_aux_neg (s : bool) (m e : Z) (l : location) :
  binary_round_aux prec emax (negb s) m e l
  = SFopp (binary_round_aux prec emax s m e l).
Proof.
  unfold binary_round_aux.
  destruct (shr_fexp prec emax m e l) as [mrs' e'].
  destruct (shr_fexp prec emax _ e' loc_Exact) as [mrs'' e''].
  destruct (shr_m mrs''); [reflexivity| |reflexivity].
  destruct (e'' <=? emax - prec); reflexivity.
Qed.

Lemma binary_round_neg (s : bool) (m : positive) (e : Z) :
  binary_round prec emax (negb s) m e = SFopp (binary_round prec emax s m e).
Proof.
  unfold binary_round. destruct (shl_align m e _) as [mz ez].
  apply binary_round_aux_neg.
Qed.

Lemma cond_Zopp_negb (s : bool) (m : Z) :
  cond_Zopp (negb s) m = - cond_Zopp s m.
Proof. destruct s; cbn [negb cond_Zopp]; lia. Qed.

Lemma mul_neg_r (a b : float32) : mul a (neg b) = neg (mul a b).
Proof.
  unfold mul, neg.
  destruct a as [sa|sa| |sa ma ea], b as [sb|sb| |sb mb eb];
    cbn [SFmul SFopp]; rewrite <- ?negb_xorb_r; try reflexivity.
  apply binary_round_aux_neg.
Qed.

Lemma SFopp_involutive (x : float32) : SFopp (SFopp x) = x.
Proof. destruct x; cbn [SFopp]; rewrite ?negb_involutive; reflexivity. Qed.

Lemma neg_zero (x : float32) : is_zero (neg x) = is_zero x.
Proof. destruct x; reflexivity. Qed.

Lemma neg_same (a b : float32) : same a b -> same (neg a) (neg b).
Proof.
  intros [->|[Za Zb]]; [apply same_refl|].
  apply same_zeros; rewrite neg_zero; assumption.
Qed.

(** The sum of the opposites is the opposite of the sum, except that an
    exact zero sum is [+0] either way. *)
Lemma add_neg (a b : float32) : same (add (neg a) (neg b)) (neg (add a b)).
Proof.
  unfold add, neg.
  destruct a as [sa|sa| |sa ma ea], b as [sb|sb| |sb mb eb];
    cbn [SFadd SFopp]; try (left; reflexivity);
    try (destruct sa, sb; (left; reflexivity) || (right; split; reflexivity)).
  rewrite !cond_Zopp_negb, <- Z.opp_add_distr.
  destruct (cond_Zopp sa _ + cond_Zopp sb _) as [|p|p].
  - right. split; reflexivity.
  - left. change (- Z.pos p) with (Z.neg p). cbn [binary_normalize].
    apply (binary_round_neg false).
  - left. change (- Z.neg p) with (Z.pos p). cbn [binary_normalize].
    rewrite (binary_round_neg false). symmetry. apply SFopp_involutive.
Qed.

(** A product with a zero is a zero or NaN: its own opposite. *)
Lemma mul_zero_neg_same (c : float32) (s : bool) :
  same (mul c (S754_zero s)) (neg (mul c (S754_zero s))).
Proof.
  destruct c as [sc|sc| |sc mc ec]; try (left; reflexivity);
    right; split; reflexivity.
Qed.

Lemma sum4_neg (p0 p1 p2 p3 q3 : float32) :
  same q3 (neg p3) ->
  same (add (add (add (neg p0) (neg p1)) (neg p2)) q3)
       (neg (add (add (add p0 p1) p2) p3)).
Proof.
  intros H3.
  eapply same_trans; [|apply add_neg].
  apply add_same; [|exact H3].
  eapply same_trans; [|apply add_neg].
  apply add_same; [apply add_neg | apply same_refl].
Qed.

Lemma TransformNormal_neg3 (v : vec3 float32) (m : mat4 float32) :
  same3 (TransformNormal (neg3 v) m) (neg3 (TransformNormal v m)).
Proof.
  rewrite !TransformNormal_unfold. unfold same3, neg3.
  cbn [x3 y3 z3 fadd fmul binary32]. rewrite !mul_neg_r, fconst_0.
  repeat split; apply sum4_neg, mul_zero_neg_same.
Qed.

Lemma CalculateClippingPlane_neg4 (p : vec3 float32) (plane : vec4 float32) :
  same (CalculateClippingPlane p true (neg4 plane))
       (neg (CalculateClippingPlane p true plane)).
Proof.
  unfold CalculateClippingPlane, dot, vec4_of, neg4.
  cbn [x4 y4 z4 w4 fadd fmul binary32]. rewrite !mul_neg_r.
  apply sum4_neg, same_refl.
Qed.

Lemma CalculateClippingPlane_origin (plane : vec4 float32) :
  valid (w4 plane) = true -> finite3 (xyz plane) = true ->
  same (CalculateClippingPlane (Vec3 (fconst 0) (fconst 0) (fconst 0)) true plane)
       (w4 plane).
Proof.
  intros Vw Hf. apply finite3_elim in Hf. cbn [xyz x3 y3 z3] in Hf.
  destruct Hf as (Fx & Fy & Fz).
  unfold CalculateClippingPlane, dot, vec4_of.
  cbn [x3 y3 z3 x4 y4 z4 w4 fadd fmul binary32].
  rewrite (mul_one_l_valid _ Vw), fconst_0.
  apply add_zero_l. repeat apply add_zeros; apply mul_zero_l; assumption.
Qed.

Lemma valid4_elim (v : vec4 float32) :
  valid4 v = true ->
  valid (x4 v) = true /\ valid (y4 v) = true
  /\ valid (z4 v) = true /\ valid (w4 v) = true.
Proof. unfold valid4. rewrite !andb_true_iff. tauto. Qed.

Lemma TransformNormal_axes (m : mat4 float32) :
  valid_mat4 m = true -> finite_mat4 m = true ->
  same3 (TransformNormal (along_x (fconst 1)) m) (xyz (col0 m))
  /\ same3 (TransformNormal (along_y (fconst 1)) m) (xyz (col1 m))
  /\ same3 (TransformNormal (along_z (fconst 1)) m) (xyz (col2 m)).
Proof.
  unfold valid_mat4, finite_mat4. rewrite !andb_true_iff.
  intros (((V0 & V1) & V2) & _) (((F0 & F1) & F2) & F3).
  apply valid4_elim in V0, V1, V2. apply finite4_elim in F0, F1, F2, F3.
  rewrite !TransformNormal_unfold. unfold same3, along_x, along_y, along_z, xyz.
  cbn [x3 y3 z3 fadd fmul binary32].
  rewrite !mul_one_r_valid by tauto. rewrite fconst_0.
  repeat split;
    repeat (eapply same_trans; [apply add_zero_r, mul_zero_r; tauto|]);
    try apply same_refl;
    apply add_zero_l; repeat apply add_zeros; apply mul_zero_r; tauto.
Qed.

End Negation.

(** ** What binary32 keeps of linearity *)

Section LinearParts.

Import B32 B32Rel B32Order.

Local Abbreviation TN := (TransformNormal (F := float32)).








End LinearParts.



(** X6: the images of the three axes under [TransformNormal] are the first
    three columns of the matrix: for a matrix of valid finite entries,
    [TransformNormal((1,0,0), m)] is [m[0].xyz], [TransformNormal((0,1,0), m)]
    is [m[1].xyz] and [TransformNormal((0,0,1), m)] is [m[2].xyz], up to the
    sign of a zero component. *)
Theorem TransformNormal_axis_images :
  forall m : mat4 B32.float32,
    B32Order.valid_mat4 m = true -> B32Rel.finite_mat4 m = true ->
    B32Rel.same3 (TransformNormal (along_x (fconst 1)) m) (xyz (col0 m))
    /\ B32Rel.same3 (TransformNormal (along_y (fconst 1)) m) (xyz (col1 m))
    /\ B32Rel.same3 (TransformNormal (along_z (fconst 1)) m) (xyz (col2 m)).
Proof. exact TransformNormal_axes. Qed.

Lemma TransformNormal_axis_images_witness :
  B32Rel.same3
    (TransformNormal (along_y (fconst 1))
       (with_col3 (scale_x (fconst (1 # 3)))
          (Vec4 (fconst 7) (fconst (-8)) (fconst 9) (fconst 1))))
    (Vec3 (fconst 0) (fconst 1) (fconst 0)).
Proof.
  refine (proj1 (proj2 (TransformNormal_axis_images
    (with_col3 (scale_x (fconst (1 # 3)))
       (Vec4 (fconst 7) (fconst (-8)) (fconst 9) (fconst 1))) _ _)));
    vm_compute; reflexivity.
Defined.

(** X7: flipping a direction flips its image: [TransformNormal(-v, m)] is
    [-TransformNormal(v, m)] for every binary32 [v] and [m], up to the sign
    of a zero component. *)
Theorem TransformNormal_flips :
  forall (v : vec3 B32.float32) (m : mat4 B32.float32),
    B32Rel.same3 (TransformNormal (B32Order.neg3 v) m)
                 (B32Order.neg3 (TransformNormal v m)).
Proof. exact TransformNormal_neg3. Qed.

(** X8: flipping an enabled clipping plane flips the sign of the distance:
    [CalculateClippingPlane(p, true, -plane)] is
    [-CalculateClippingPlane(p, true, plane)] for every binary32 [p] and
    [plane], up to the sign of a zero; a disabled plane gives 1 flipped or
    not. *)
Theorem CalculateClippingPlane_flips :
  forall (p : vec3 B32.float32) (plane : vec4 B32.float32),
    B32Rel.same (CalculateClippingPlane p true (B32Order.neg4 plane))
                (B32Order.neg (CalculateClippingPlane p true plane))
    /\ CalculateClippingPlane p false (B32Order.neg4 plane)
       = CalculateClippingPlane p false plane.
Proof.
  intros p plane. split; [apply CalculateClippingPlane_neg4|reflexivity].
Qed.

(** X9: the distance of the origin from an enabled plane is the plane's
    [w]: for a plane with finite [x], [y], [z] and a valid [w],
    [CalculateClippingPlane((0,0,0), true, plane)] is [plane.w], up to the
    sign of zero. *)
Theorem CalculateClippingPlane_at_origin :
  forall plane : vec4 B32.float32,
    B32.valid (w4 plane) = true -> B32Rel.finite3 (xyz plane) = true ->
    B32Rel.same
      (CalculateClippingPlane (Vec3 (fconst 0) (fconst 0) (fconst 0)) true plane)
      (w4 plane).
Proof. exact CalculateClippingPlane_origin. Qed.

Lemma CalculateClippingPlane_at_origin_witness :
  B32Rel.same
    (CalculateClippingPlane (Vec3 (fconst 0) (fconst 0) (fconst 0)) true
       (Vec4 (fconst (3 # 5)) (fconst (-4 # 5)) (fconst 0) (fconst (25 # 2))))
    (fconst (25 # 2)).
Proof.
  apply (CalculateClippingPlane_at_origin
           (Vec4 (fconst (3 # 5)) (fconst (-4 # 5)) (fconst 0) (fconst (25 # 2))));
    vm_compute; reflexivity.
Defined.

(** X10: running [DO_CLIPPING] a second time changes nothing, whatever the
    two arguments, and the clip distances defined afterwards are those
    defined before together with slots 0 and 1. *)
Theorem DO_CLIPPING_idempotent :
  forall (F : Type) (ops : FloatOps F) (A B : Type) (p : A) (q : B)
         (st : Invocation F),
    DO_CLIPPING p (DO_CLIPPING q st) = DO_CLIPPING q st
    /\ dom (gl_ClipDistance (DO_CLIPPING q st))
       = {[ 0%nat; 1%nat ]} ∪ dom (gl_ClipDistance st).
Proof.
  intros F ops A B p q st. split.
  - unfold DO_CLIPPING. cbn [_GlobalConstants gl_ClipDistance]. f_equal.
    apply map_eq. intros i.
    destruct (decide (i = 1%nat)) as [->|H1].
    { rewrite !lookup_insert_eq. reflexivity. }
    rewrite !(lookup_insert_ne _ 1%nat i) by congruence.
    destruct (decide (i = 0%nat)) as [->|H0].
    { rewrite !lookup_insert_eq. reflexivity. }
    rewrite !(lookup_insert_ne _ 0%nat i) by congruence.
    rewrite !(lookup_insert_ne _ 1%nat i) by congruence.
    rewrite !(lookup_insert_ne _ 0%nat i) by congruence.
    reflexivity.
  - rewrite DO_CLIPPING_clip, !dom_insert_L. set_solver.
Qed.

(** ** The literal of the alpha test and the decimal it is written as *)

Section AlphaDecimal.

Import B32 B32Rel B32Order.

Local Abbreviation lit := (fconst (37647 # 100000) : float32).

Lemma scaled_lit : scaled lit = 12632237 * 2 ^ 124.
Proof. rewrite alpha_literal. reflexivity. Qed.

(** The valid data above the literal start one unit in its last place
    higher. *)
Lemma scaled_above_lit (x : float32) :
  valid x = true -> scaled lit < scaled x -> 12632238 * 2 ^ 124 <= scaled x.
Proof.
  rewrite scaled_lit.
  pose proof (Z.pow_pos_nonneg 2 124 ltac:(lia) ltac:(lia)) as HP.
  destruct x as [s|s| |s m e]; cbn [scaled]; try lia.
  unfold valid, valid_binary. intros V Hlt.
  destruct (bounded_range _ _ V) as (He & Hm & _).
  change (2 ^ 24) with 16777216 in Hm.
  pose proof (Z.pow_pos_nonneg 2 (e + 149) ltac:(lia) ltac:(lia)) as Hq.
  destruct s; cbn [cond_Zopp] in *; [nia|].
  destruct (Z.le_gt_cases (e + 149) 123) as [Hs|Hs].
  - exfalso.
    pose proof (Z.pow_le_mono_r 2 (e + 149) 123 ltac:(lia) Hs) as Hp.
    change (2 ^ 124) with (2 * 2 ^ 123) in *.
    pose proof (Z.pow_pos_nonneg 2 123 ltac:(lia) ltac:(lia)).
    nia.
  - replace (e + 149) with ((e + 25) + 124) in * by lia.
    rewrite Z.pow_add_r in * by lia.
    pose proof (Z.pow_pos_nonneg 2 (e + 25) ltac:(lia) ltac:(lia)).
    rewrite Z.mul_assoc in *.
    apply Z.mul_le_mono_nonneg_r; [lia|].
    apply Z.mul_lt_mono_pos_r in Hlt; lia.
Qed.

Lemma to_Q_below_decimal (x : float32) :
  valid x = true ->
  (to_Q x < 37647 # 100000)%Q <-> scaled x * 100000 < 37647 * 2 ^ 149.
Proof.
  intros V. rewrite (to_Q_scaled x V). unfold Qlt. cbn [Qnum Qden].
  rewrite Pos2Z.inj_pow. reflexivity.
Qed.

Lemma eqb_false_key (x y : float32) :
  valid x = true -> valid y = true ->
  is_nan x = false -> is_nan y = false ->
  eqb x y = false -> key x <> key y.
Proof.
  intros Vx Vy Nx Ny. unfold eqb, SFeqb.
  rewrite (SFcompare_key x y Vx Vy Nx Ny). intros H E.
  rewrite E, Z.compare_refl in H. discriminate.
Qed.

Lemma finite_not_nan (x : float32) : is_finite x = true -> is_nan x = false.
Proof. destruct x; try discriminate; reflexivity. Qed.

Lemma key_finite (x : float32) : is_finite x = true -> key x = scaled x.
Proof. destruct x; try discriminate; reflexivity. Qed.

Lemma FailsAlphaTest_vs_decimal (alpha : float32) :
  valid alpha = true -> is_finite alpha = true -> eqb alpha lit = false ->
  FailsAlphaTest alpha = true <-> (to_Q alpha < 37647 # 100000)%Q.
Proof.
  intros V Fin Hne.
  pose proof (finite_not_nan alpha Fin) as N.
  apply (eqb_false_key alpha lit V valid_lit N eq_refl) in Hne.
  rewrite (FailsAlphaTest_key alpha V N), (to_Q_below_decimal alpha V).
  rewrite (key_finite alpha Fin) in *.
  change (key lit) with (scaled lit) in *.
  pose proof (scaled_above_lit alpha V) as Habove.
  rewrite scaled_lit in *.
  change (2 ^ 149) with (33554432 * 2 ^ 124).
  pose proof (Z.pow_pos_nonneg 2 124 ltac:(lia) ltac:(lia)) as HP.
  split; intros H; [nia|].
  destruct (Z.lt_trichotomy (scaled alpha) (12632237 * 2 ^ 124))
    as [Hlt|[Heq|Hgt]]; [assumption|contradiction|].
  specialize (Habove Hgt). exfalso. nia.
Qed.

End AlphaDecimal.

(** X11: compared with the decimal 0.37647 that the literal [0.37647f] is
    written as, the alpha test errs on one datum only, the literal itself:
    every other valid finite [alpha] fails the test exactly when its value
    is below 0.37647, while the literal, whose value is below 0.37647, does
    not fail. *)
Theorem FailsAlphaTest_agrees_with_decimal :
  forall alpha : B32.float32,
    B32.valid alpha = true -> B32.is_finite alpha = true ->
    (B32.eqb alpha (fconst (37647 # 100000)) = false ->
     (FailsAlphaTest alpha = true <-> (B32.to_Q alpha < 37647 # 100000)%Q))
    /\ (B32.eqb alpha (fconst (37647 # 100000)) = true ->
        FailsAlphaTest alpha = false /\ (B32.to_Q alpha < 37647 # 100000)%Q).
Proof.
  intros alpha V Fin. split; [apply FailsAlphaTest_vs_decimal; assumption|].
  intros He. apply eqb_same in He. destruct He as [[->|[_ Hz]] _].
  - split; vm_compute; reflexivity.
  - vm_compute in Hz. discriminate.
Qed.

Lemma FailsAlphaTest_agrees_with_decimal_witness :
  FailsAlphaTest (unorm8 96) = true <-> (B32.to_Q (unorm8 96) < 37647 # 100000)%Q.
Proof.
  refine (proj1 (FailsAlphaTest_agrees_with_decimal (unorm8 96) _ _) _);
    vm_compute; reflexivity.
Defined.

(** ** Axis-aligned clipping planes *)

Section AxisPlanes.

Import B32 B32Rel B32Order.

Lemma CalculateClippingPlane_axis (p : vec3 float32) (w : float32) :
  valid3 p = true -> finite3 p = true -> valid w = true ->
  same (CalculateClippingPlane p true (Vec4 (fconst 1) (fconst 0) (fconst 0) w))
       (add (x3 p) w)
  /\ same (CalculateClippingPlane p true (Vec4 (fconst 0) (fconst 1) (fconst 0) w))
          (add (y3 p) w)
  /\ same (CalculateClippingPlane p true (Vec4 (fconst 0) (fconst 0) (fconst 1) w))
          (add (z3 p) w).
Proof.
  intros Vp Fp Vw. apply valid3_elim in Vp. apply finite3_elim in Fp.
  destruct Vp as (Vx & Vy & Vz), Fp as (Fx & Fy & Fz).
  unfold CalculateClippingPlane, dot, vec4_of.
  cbn [x3 y3 z3 x4 y4 z4 w4 fadd fmul binary32].
  rewrite !mul_one_r_valid, (mul_one_l_valid w Vw), fconst_0 by assumption.
  pose proof (mul_zero_r _ false Fx) as Zx.
  pose proof (mul_zero_r _ false Fy) as Zy.
  pose proof (mul_zero_r _ false Fz) as Zz.
  repeat split; (apply add_same; [|apply same_refl]).
  - eapply same_trans; [apply add_zero_r, Zz|]. apply add_zero_r, Zy.
  - eapply same_trans; [apply add_zero_r, Zz|]. apply add_zero_l, Zx.
  - apply add_zero_l, add_zeros; assumption.
Qed.

End AxisPlanes.

(** X12: for an enabled plane along an axis the distance is the matching
    coordinate plus [w], rounded once: with valid finite [p] and valid [w],
    [CalculateClippingPlane(p, true, (0,1,0,w))] is [p.y + w], and likewise
    [p.x + w] for [(1,0,0,w)] and [p.z + w] for [(0,0,1,w)], up to the sign
    of zero. *)
Theorem CalculateClippingPlane_axis_aligned :
  forall (p : vec3 B32.float32) (w : B32.float32),
    B32Rel.valid3 p = true -> B32Rel.finite3 p = true -> B32.valid w = true ->
    B32Rel.same
      (CalculateClippingPlane p true (Vec4 (fconst 1) (fconst 0) (fconst 0) w))
      (B32.add (x3 p) w)
    /\ B32Rel.same
         (CalculateClippingPlane p true (Vec4 (fconst 0) (fconst 1) (fconst 0) w))
         (B32.add (y3 p) w)
    /\ B32Rel.same
         (CalculateClippingPlane p true (Vec4 (fconst 0) (fconst 0) (fconst 1) w))
         (B32.add (z3 p) w).
Proof. exact CalculateClippingPlane_axis. Qed.

Lemma CalculateClippingPlane_axis_aligned_witness :
  B32Rel.same
    (CalculateClippingPlane
       (Vec3 (fconst (3 # 2)) (fconst (12 # 5)) (fconst (-7)))
       true (Vec4 (fconst 0) (fconst 1) (fconst 0) (fconst (-5))))
    (B32.add (fconst (12 # 5)) (fconst (-5))).
Proof.
  refine (proj1 (proj2 (CalculateClippingPlane_axis_aligned
    (Vec3 (fconst (3 # 2)) (fconst (12 # 5)) (fconst (-7))) (fconst (-5)) _ _ _)));
    vm_compute; reflexivity.
Defined.
